(** * habitus: the step builder ([build/builder.go])

    A shallow embedding of the build orchestration code of habitus and
    the properties of it that the design document states.

    Go strings are byte strings ([string]); Go's [int] is the 64-bit
    signed integer, [os.FileMode] a 32-bit unsigned one, both kept in [Z]
    with the wrap-around written out.  The Docker daemon, the Dockerfile
    parser, the squasher and the random name generators are outside the
    repository: their answers are drawn from an environment that the
    development keeps abstract.  The host file system is a finite map. *)

From Stdlib Require Import ZArith Ascii String.
From stdpp Require Import base gmap sets list strings.

Local Open Scope Z_scope.
Local Set Warnings "-register-all".

(** ** Characters and byte-level helpers *)

Definition byte_of (c : ascii) : Z := Z.of_N (N_of_ascii c).
Definition chr (n : Z) : ascii := ascii_of_N (Z.to_N n).

Definition str1 (c : ascii) : string := String c EmptyString.

Definition ch_colon : ascii := ":"%char.
Definition ch_slash : ascii := "/"%char.
Definition ch_dot : ascii := "."%char.
Definition ch_space : ascii := " "%char.
Definition ch_nl : ascii := "010"%char.
Definition ch_squote : ascii := "'"%char.
Definition ch_dquote : ascii := "034"%char.
Definition ch_bslash : ascii := "\"%char.

(** [utf8.RuneSelf]: bytes below it are single-byte runes. *)
Definition RuneSelf : Z := 128.

Fixpoint isASCII (s : string) : bool :=
  match s with
  | EmptyString => true
  | String c t => (byte_of c <? RuneSelf) && isASCII t
  end.

Fixpoint str_map (f : ascii -> ascii) (s : string) : string :=
  match s with
  | EmptyString => EmptyString
  | String c t => String (f c) (str_map f t)
  end.

Fixpoint str_rev_onto (s acc : string) : string :=
  match s with
  | EmptyString => acc
  | String c t => str_rev_onto t (String c acc)
  end.

Definition str_rev (s : string) : string := str_rev_onto s EmptyString.

Fixpoint str_concat (l : list string) : string :=
  match l with
  | [] => EmptyString
  | x :: r => x +:+ str_concat r
  end.

(** ** The parts of Go's library the builder calls

    What Go computes on bytes below [RuneSelf] is written out.  On other
    input Go consults its Unicode tables; those are taken as given. *)

Record UnicodeTables := {
  (** [strings.Map(unicode.ToLower, s)] *)
  MapToLower : string -> string;
  (** [strings.TrimFunc(s, unicode.IsSpace)] *)
  TrimFuncIsSpace : string -> string;
  (** [strings.TrimRightFunc(s, unicode.IsSpace)] *)
  TrimRightFuncIsSpace : string -> string;
  (** the body [strconv.Quote] puts between the quotes *)
  QuoteRunes : string -> string
}.

Module strings.

(** [strings.Contains(s, substr)] *)
Fixpoint Contains (s substr : string) : bool :=
  String.prefix substr s ||
  match s with
  | EmptyString => false
  | String _ t => Contains t substr
  end.

(** [strings.Split(s, sep)] for a separator of one byte: the pieces
    between the occurrences of [sep], empty pieces included. *)
Fixpoint Split (s : string) (sep : ascii) : list string :=
  match s with
  | EmptyString => [EmptyString]
  | String c t =>
      if Ascii.eqb c sep then EmptyString :: Split t sep
      else match Split t sep with
           | h :: r => String c h :: r
           | [] => [str1 c]
           end
  end.

(** [strings.Replace(s, old, new, -1)] for [old] of one byte. *)
Fixpoint ReplaceAll (s : string) (old : ascii) (new : string) : string :=
  match s with
  | EmptyString => EmptyString
  | String c t =>
      if Ascii.eqb c old then new +:+ ReplaceAll t old new
      else String c (ReplaceAll t old new)
  end.

Definition lowerByte (c : ascii) : ascii :=
  let b := byte_of c in
  if (65 <=? b) && (b <=? 90) then chr (b + 32) else c.

(** [strings.ToLower] *)
Definition ToLower (U : UnicodeTables) (s : string) : string :=
  if isASCII s then str_map lowerByte s else MapToLower U s.

(** the [asciiSpace] table *)
Definition asciiSpace (c : ascii) : bool :=
  let b := byte_of c in
  (b =? 9) || (b =? 10) || (b =? 11) || (b =? 12) || (b =? 13) || (b =? 32).

Fixpoint dropSpaces (s : string) : string :=
  match s with
  | EmptyString => EmptyString
  | String c t => if asciiSpace c then dropSpaces t else s
  end.

Definition startsNonASCII (s : string) : bool :=
  match s with
  | EmptyString => false
  | String c _ => RuneSelf <=? byte_of c
  end.

(** [strings.TrimSpace]: the scan from the left, then the scan from
    the right, each leaving to the Unicode-aware trim when it meets a
    byte that is not ASCII. *)
Definition TrimSpace (U : UnicodeTables) (s : string) : string :=
  let s1 := dropSpaces s in
  if startsNonASCII s1 then TrimFuncIsSpace U s1
  else
    let r := dropSpaces (str_rev s1) in
    if startsNonASCII r then TrimRightFuncIsSpace U (str_rev r)
    else str_rev r.

End strings.

Module strconv.

Definition hexdigit (n : Z) : ascii :=
  if n <? 10 then chr (48 + n) else chr (87 + n).

(** what [strconv.Quote] writes for one byte below [RuneSelf] *)
Definition quoteByte (c : ascii) : string :=
  let b := byte_of c in
  if Ascii.eqb c ch_dquote || Ascii.eqb c ch_bslash then String ch_bslash (str1 c)
  else if (32 <=? b) && (b <=? 126) then str1 c
  else if b =? 7 then String ch_bslash (str1 "a"%char)
  else if b =? 8 then String ch_bslash (str1 "b"%char)
  else if b =? 12 then String ch_bslash (str1 "f"%char)
  else if b =? 10 then String ch_bslash (str1 "n"%char)
  else if b =? 13 then String ch_bslash (str1 "r"%char)
  else if b =? 9 then String ch_bslash (str1 "t"%char)
  else if b =? 11 then String ch_bslash (str1 "v"%char)
  else String ch_bslash (String "x"%char
         (String (hexdigit (Z.shiftr b 4)) (str1 (hexdigit (Z.land b 15))))).

Fixpoint quoteBytes (s : string) : string :=
  match s with
  | EmptyString => EmptyString
  | String c t => quoteByte c +:+ quoteBytes t
  end.

(** [strconv.Quote] *)
Definition Quote (U : UnicodeTables) (s : string) : string :=
  String ch_dquote
    ((if isASCII s then quoteBytes s else QuoteRunes U s) +:+ str1 ch_dquote).

Inductive NumErr := ErrSyntax | ErrRange.

Definition maxUint64 : Z := 2 ^ 64 - 1.

Definition digitOf (c : ascii) : option Z :=
  let b := byte_of c in
  if (48 <=? b) && (b <=? 57) then Some (b - 48) else None.

(** the digit loop of [strconv.ParseUint(s, 10, 64)], [n] the value read
    so far *)
Fixpoint parseDigits (s : string) (n : Z) : Z * option NumErr :=
  match s with
  | EmptyString => (n, None)
  | String c t =>
      match digitOf c with
      | None => (0, Some ErrSyntax)
      | Some d =>
          if maxUint64 / 10 + 1 <=? n then (maxUint64, Some ErrRange)
          else if maxUint64 <? n * 10 + d then (maxUint64, Some ErrRange)
          else parseDigits t (n * 10 + d)
      end
  end.

Definition ParseUint (s : string) : Z * option NumErr :=
  match s with
  | EmptyString => (0, Some ErrSyntax)
  | _ => parseDigits s 0
  end.

(** [strconv.ParseInt(s, 10, 0)] where [int] has 64 bits *)
Definition ParseInt (s : string) : Z * option NumErr :=
  match s with
  | EmptyString => (0, Some ErrSyntax)
  | String c t =>
      let neg := Ascii.eqb c "-"%char in
      let s' := if Ascii.eqb c "+"%char || neg then t else s in
      match ParseUint s' with
      | (_, Some ErrSyntax) => (0, Some ErrSyntax)
      | (un, _) =>
          let cutoff := 2 ^ 63 in
          if negb neg && (cutoff <=? un) then (cutoff - 1, Some ErrRange)
          else if neg && (cutoff <? un) then (- cutoff, Some ErrRange)
          else (if neg then - un else un, None)
      end
  end.

(** [strconv.Atoi] *)
Definition Atoi (s : string) : Z * option NumErr := ParseInt s.

End strconv.

Module path.

Fixpoint joinWith (sep : string) (l : list string) : string :=
  match l with
  | [] => EmptyString
  | [x] => x
  | x :: r => x +:+ sep +:+ joinWith sep r
  end.

Definition rooted (p : string) : bool :=
  match p with
  | String c _ => Ascii.eqb c ch_slash
  | EmptyString => false
  end.

Definition dotdot : string := String ch_dot (str1 ch_dot).

(** One element of the path met by the loop of [path.Clean]; [out] holds
    the elements written so far, the last one first. *)
Definition cleanStep (isRooted : bool) (out : list string) (e : string)
  : list string :=
  if String.eqb e EmptyString then out
  else if String.eqb e (str1 ch_dot) then out
  else if String.eqb e dotdot then
    match out with
    | top :: rest =>
        if String.eqb top dotdot then e :: out else rest
    | [] => if isRooted then out else [e]
    end
  else e :: out.

(** [path.Clean], element by element: empty and [.] elements are
    dropped, [..] removes the element before it where there is one to
    remove, and an empty result is [.] *)
Definition Clean (p : string) : string :=
  match p with
  | EmptyString => str1 ch_dot
  | _ =>
      let out := fold_left (cleanStep (rooted p)) (strings.Split p ch_slash) [] in
      let body := joinWith (str1 ch_slash) (rev out) in
      if rooted p then String ch_slash body
      else match body with
           | EmptyString => str1 ch_dot
           | _ => body
           end
  end.

Fixpoint dropEmpty (l : list string) : list string :=
  match l with
  | EmptyString :: r => dropEmpty r
  | _ => l
  end.

(** [path.Join]; [filepath.Join] is the same function on Unix *)
Definition Join (elem : list string) : string :=
  match dropEmpty elem with
  | [] => EmptyString
  | l => Clean (joinWith (str1 ch_slash) l)
  end.

End path.

Module filepath.

Definition Join := path.Join.

Fixpoint dropSlashes (s : string) : string :=
  match s with
  | EmptyString => EmptyString
  | String c t => if Ascii.eqb c ch_slash then dropSlashes t else s
  end.

Fixpoint takeElem (s : string) : string :=
  match s with
  | EmptyString => EmptyString
  | String c t => if Ascii.eqb c ch_slash then EmptyString else String c (takeElem t)
  end.

(** [filepath.Base] on Unix: trailing slashes are stripped and what
    follows the last remaining slash is kept *)
Definition Base (p : string) : string :=
  match p with
  | EmptyString => str1 ch_dot
  | _ =>
      match dropSlashes (str_rev p) with
      | EmptyString => str1 ch_slash
      | r => str_rev (takeElem r)
      end
  end.

End filepath.

(** ** The manifest ([Step], [Artifact]) and the configuration

    The structures are declared outside [builder.go]; the fields are the
    ones the builder reads.  A Go step points back to its manifest
    ([step.Manifest]); here the manifest is passed next to the step. *)

Definition error := string.

Inductive Res (A : Type) : Type :=
| Ok (a : A)
| Err (e : error).
Arguments Ok {A} a.
Arguments Err {A} e.

Record Artifact := {
  Source : string;
  Dest : string
}.

Record cleanup := {
  Commands : list string
}.

Record Step := {
  Name : string;
  Label : string;
  Dockerfile : string;
  Artifacts : list Artifact;
  Cleanup : cleanup;
  Command : string
}.

Record Manifest := {
  Steps : list Step
}.

Module configuration.

Record BuildArg := {
  Key : string;
  Value : string
}.

Record Config := {
  Workdir : string;
  NoSquash : bool;
  NoCache : bool;
  SuppressOutput : bool;
  RmTmpContainers : bool;
  ForceRmTmpContainer : bool;
  BuildArgs : list BuildArg
}.

End configuration.
Import configuration.

Record Builder := {
  Build : Manifest;
  UniqueID : string;
  Conf : Config;
  auth : option string   (* the registry credentials, when ~/.dockercfg was read *)
}.

(** Modelled from the spec: [Manifest.FindStepByName], which lives in
    [manifest.go] and is not among the sources.  The design document has
    the rewriter ask whether the base image "exactly matches another
    step's logical Name": the lookup returns the first step of the
    manifest with that very name, nothing when there is none, and no
    error of its own. *)
Definition FindStepByName (m : Manifest) (name : string) : Res (option Step) :=
  Ok (List.find (fun s => String.eqb (Name s) name) (Steps m)).

(** ** The parsed Dockerfile ([parser.Node]) *)

Module parser.

Inductive Node : Type := mkNode {
  Value : string;            (* actual content *)
  Next : option Node;        (* the next item in the current sexp *)
  Children : list Node;      (* the children of this sexp *)
  Original : string;         (* original line used before parsing *)
  Flags : list string
}.

Definition setValue (n : Node) (v : string) : Node :=
  mkNode v (Next n) (Children n) (Original n) (Flags n).

Definition setNext (n : Node) (nx : option Node) : Node :=
  mkNode (Value n) nx (Children n) (Original n) (Flags n).

Definition setChildren (n : Node) (ch : list Node) : Node :=
  mkNode (Value n) (Next n) ch (Original n) (Flags n).

(** a token of an instruction line: a node without children or flags *)
Definition token (v : string) (nx : option Node) : Node :=
  mkNode v nx [] EmptyString [].

End parser.
Import parser.

Section Names.

Context (U : UnicodeTables).

(** [fmt.Sprintf(" %q", flags)] for a slice of strings: the quoted
    elements, a space between them, in square brackets *)
Definition Sprintf_q (flags : list string) : string :=
  " [" +:+ path.joinWith " " (map (strconv.Quote U) flags) +:+ "]".

(** provides a name for the image: it always adds the UID (if provided)
    to the end of the name keeping the tag intact if it exists *)
Definition uniqueStepName (b : Builder) (step : Step) : string :=
  if String.eqb (UniqueID b) EmptyString then Name step
  else
    let newName :=
      if strings.Contains (Name step) ":" then
        let parts := strings.Split (Name step) ch_colon in
        default EmptyString (parts !! 0%nat) +:+ "-" +:+ UniqueID b +:+ ":"
          +:+ default EmptyString (parts !! 1%nat)
      else Name step +:+ "-" +:+ UniqueID b in
    strings.ToLower U newName.

Definition uniqueDockerfile (b : Builder) (step : Step) : string :=
  filepath.Join [Workdir (Conf b); Dockerfile step] +:+ ".generated".

Definition newline : string := str1 ch_nl.

(** the loop over [node.Children]; [dump] is [dumpDockerfile] itself *)
Definition dumpChildren (dump : Node -> string) : list Node -> string :=
  fix children (l : list Node) : string :=
    match l with
    | [] => EmptyString
    | n :: r =>
        (if String.eqb (Value n) "cmd" then
           (* keep the old cmd *)
           Original n +:+ newline
         else dump n +:+ newline) +:+ children r
    end.

(** the loop [for n := node.Next; n != nil; n = n.Next] *)
Definition dumpNext (dump : Node -> string) : Node -> string :=
  fix next (n : Node) : string :=
    (if (0 <? length (Children n))%nat then " " +:+ dump n
     else " " +:+ Value n) +:+
    match Next n with
    | None => EmptyString
    | Some m => next m
    end.

Fixpoint dumpDockerfile (node : Node) : string :=
  let str := Value node in
  let str :=
    if (0 <? length (Flags node))%nat then str +:+ Sprintf_q (Flags node)
    else str in
  let str := str +:+ dumpChildren dumpDockerfile (Children node) in
  let str :=
    str +:+
    match Next node with
    | None => EmptyString
    | Some n => dumpNext dumpDockerfile n
    end in
  strings.TrimSpace U str.

End Names.

(** ** The host file system

    A path names a regular file, a directory or nothing.  Paths are the
    strings the program passes to the system calls.  The failures written
    out are the ones the state of the file system decides. *)

Record File := {
  data : string;
  mode : Z
}.

Record Host := {
  files : gmap string File;
  dirs : gset string;
  umask : Z
}.

(** what an opened path gives its reader *)
Inductive Reader :=
| ReadFile (content : string)
| ReadDir.

Module os.

Definition ModePerm : Z := 511.            (* 0777 *)
Definition ModeSetuid : Z := 2 ^ 23.
Definition ModeSetgid : Z := 2 ^ 22.
Definition ModeSticky : Z := 2 ^ 20.

(** [os.FileMode(i)] for an [int]: the low 32 bits *)
Definition FileMode (i : Z) : Z := i mod 2 ^ 32.

(** [syscallMode]: the bits of a [FileMode] that [chmod(2)] receives *)
Definition syscallMode (i : Z) : Z :=
  Z.lor (Z.land i ModePerm)
    (Z.lor (if Z.testbit i 23 then 2048 else 0)
       (Z.lor (if Z.testbit i 22 then 1024 else 0)
              (if Z.testbit i 20 then 512 else 0))).

(** [path.Dir]: the path up to the last slash, cleaned *)
Fixpoint dropElem (s : string) : string :=
  match s with
  | EmptyString => EmptyString
  | String c t => if Ascii.eqb c ch_slash then s else dropElem t
  end.

Definition Dir (p : string) : string :=
  path.Clean (str_rev (dropElem (str_rev p))).

Fixpoint ancestorsN (n : nat) (p : string) : list string :=
  match n with
  | O => []
  | S k =>
      let d := Dir p in
      if String.eqb d p then [] else d :: ancestorsN k d
  end.

(** the directories above [p], nearest first *)
Definition ancestors (p : string) : list string :=
  ancestorsN (String.length p) p.

Definition setFiles (h : Host) (fs : gmap string File) : Host :=
  {| files := fs; dirs := dirs h; umask := umask h |}.

Definition setDirs (h : Host) (ds : gset string) : Host :=
  {| files := files h; dirs := ds; umask := umask h |}.

Definition isDir (h : Host) (p : string) : bool :=
  String.eqb p "." || String.eqb p "/" || bool_decide (p ∈ dirs h).

Definition isFile (h : Host) (p : string) : bool :=
  bool_decide (is_Some (files h !! p)).

Definition Open (h : Host) (p : string) : Res Reader :=
  match files h !! p with
  | Some f => Ok (ReadFile (data f))
  | None => if isDir h p then Ok ReadDir else Err "no such file or directory"
  end.

(** [os.OpenFile(p, O_CREATE|O_TRUNC and a write mode, perm)]: the file
    is emptied, and created with [perm] less the umask when it is new *)
Definition createWith (perm : Z) (h : Host) (p : string) : Res Host :=
  match files h !! p with
  | Some f => Ok (setFiles h (<[p := {| data := EmptyString; mode := mode f |}]> (files h)))
  | None =>
      if isDir h p then Err "is a directory"
      else if negb (isDir h (Dir p)) then Err "no such file or directory"
      else Ok (setFiles h
                 (<[p := {| data := EmptyString;
                            mode := Z.land perm (Z.lnot (umask h)) |}]> (files h)))
  end.

(** [os.Create] *)
Definition Create : Host -> string -> Res Host := createWith 438.  (* 0666 *)

(** writing [d] through an open file that was just emptied *)
Definition write (h : Host) (p : string) (d : string) : Host :=
  match files h !! p with
  | Some f => setFiles h (<[p := {| data := d; mode := mode f |}]> (files h))
  | None => h
  end.

(** [os.Remove]: a file, or a directory nothing lives in *)
Definition Remove (h : Host) (p : string) : Res Host :=
  match files h !! p with
  | Some _ => Ok (setFiles h (delete p (files h)))
  | None =>
      if bool_decide (p ∈ dirs h) then
        if bool_decide (set_Forall (fun q => Dir q ≠ p) (dom (files h) ∪ (dirs h ∖ {[p]})))
        then Ok (setDirs h (dirs h ∖ {[p]}))
        else Err "directory not empty"
      else Err "no such file or directory"
  end.

(** [os.Chmod] *)
Definition Chmod (h : Host) (p : string) (m : Z) : Res Host :=
  match files h !! p with
  | Some f => Ok (setFiles h (<[p := {| data := data f; mode := syscallMode m |}]> (files h)))
  | None => if isDir h p then Ok h else Err "no such file or directory"
  end.

(** [os.MkdirAll]: fails where the path or a directory above it is a
    regular file, otherwise makes what is missing *)
Definition MkdirAll (h : Host) (p : string) : Res Host :=
  if String.eqb p EmptyString then Err "no such file or directory"
  else if existsb (isFile h) (p :: ancestors p) then Err "not a directory"
  else Ok (setDirs h (dirs h ∪ list_to_set (p :: ancestors p))).

End os.

Module ioutil.

(** [ioutil.WriteFile] *)
Definition WriteFile (h : Host) (p : string) (d : string) (perm : Z) : Res Host :=
  match os.createWith perm h p with
  | Ok h' => Ok (os.write h' p d)
  | Err e => Err e
  end.

End ioutil.

(** ** The Docker client ([go-dockerclient]) as the builder uses it *)

Module tar.

Definition TypeReg : ascii := "0"%char.

(** an entry as the reader hands it over: the header's type flag, the
    bytes [io.Copy] moves, and the error it may end with *)
Record Entry := {
  Typeflag : ascii;
  Body : string;
  CopyErr : option error
}.

(** the entries [tr.Next()] yields before it answers [io.EOF] ([None])
    or another error *)
Record Archive := {
  entries : list Entry;
  trailer : option error
}.

End tar.

Module docker.

Record BuildArg := { Name : string; Value : string }.

Record BuildImageOptions := {
  bName : string;
  bDockerfile : string;
  bNoCache : bool;
  bSuppressOutput : bool;
  bRmTmpContainer : bool;
  bForceRmTmpContainer : bool;
  bContextDir : string;
  bBuildArgs : list BuildArg;
  bAuthConfigs : option string
}.

Record Config := {
  AttachStdout : bool;
  AttachStdin : bool;
  AttachStderr : bool;
  Image : string;
  Cmd : list string;
  Tty : bool
}.

Record CreateContainerOptions := {
  cName : string;
  cConfig : Config
}.

Record Container := { ID : string }.

Record CreateExecOptions := {
  eContainer : string;
  eAttachStdin : bool;
  eAttachStdout : bool;
  eAttachStderr : bool;
  eTty : bool;
  eCmd : list string
}.

Record Exec := { execID : string }.

Inductive Stream := Stdout | Stderr | Buffer.

Record StartExecOptions := {
  OutputStream : Stream;
  ErrorStream : Stream;
  RawTerminal : bool;
  Detach : bool
}.

Record ExecInspect := { ExitCode : Z }.

Record APIImage := { imageID : string }.

Record RemoveContainerOptions := {
  rID : string;
  RemoveVolumes : bool;
  Force : bool
}.

(** the requests sent, in the order the builder sends them *)
Inductive Call :=
| BuildImage (opts : BuildImageOptions)
| CreateContainer (opts : CreateContainerOptions)
| StartContainer (id : string)
| CreateExec (opts : CreateExecOptions)
| StartExec (id : string) (opts : StartExecOptions)
| InspectExec (id : string)
| CommitContainer (container : string)
| StopContainer (id : string) (timeout : Z)
| ExportImage (name : string)
| LoadImage (input : string)
| DownloadFromContainer (id : string) (pth : string)
| RemoveContainer (opts : RemoveContainerOptions).

(** The answers of the daemon.  [E] is whatever state the world outside
    keeps; every answer may depend on it and change it. *)
Record Client (E : Type) := {
  doBuildImage : BuildImageOptions -> E -> option error * E;
  doCreateContainer : CreateContainerOptions -> E -> Res Container * E;
  doStartContainer : string -> E -> option error * E;
  doCreateExec : CreateExecOptions -> E -> Res Exec * E;
  (** the bytes written to the output stream, and the error *)
  doStartExec : string -> StartExecOptions -> E -> (string * option error) * E;
  (** the two results of the Go call, as a pair *)
  doInspectExec : string -> E -> (ExecInspect * option error) * E;
  doCommitContainer : string -> E -> Res APIImage * E;
  doStopContainer : string -> Z -> E -> option error * E;
  doExportImage : string -> E -> (string * option error) * E;
  doLoadImage : string -> E -> option error * E;
  doDownloadFromContainer : string -> string -> E -> Res tar.Archive * E;
  doRemoveContainer : RemoveContainerOptions -> E -> option error * E
}.

End docker.

(** What else lies outside the repository's builder: the Dockerfile
    parser, the squasher, and the two sources of random names. *)
Record Outside (E : Type) := {
  client : docker.Client E;
  (** [parser.Parse] *)
  Parse : Reader -> Res Node;
  (** [squash.Squasher.Squash(input, output, tag)]: what it writes to the
      output path, and its error *)
  Squash : Host -> string -> string -> string -> E -> (string * option error) * E;
  (** [uniuri.New()] *)
  uniuriNew : E -> string * E;
  (** the name [ioutil.TempFile] picks for a prefix *)
  tempName : string -> E -> Res string * E
}.
Arguments client {E} _.
Arguments Parse {E} _ _.
Arguments Squash {E} _ _ _ _ _ _.
Arguments uniuriNew {E} _ _.
Arguments tempName {E} _ _ _.

(** ** The logger *)

Inductive Level := Debug | Info | Notice | Error.

Inductive LogArg :=
| AStr (s : string)
| AInt (z : Z)
| AList (l : list string)
| ANumErr (e : strconv.NumErr).

Record LogEntry := {
  level : Level;
  format : string;
  args : list LogArg
}.

(** ** The builder *)

(** A statement either falls through to the next one or leaves the
    function with the value of [return]: [None] is Go's [nil]. *)
Inductive Outcome (A : Type) : Type :=
| Cont (a : A)
| Returned (err : option error).
Arguments Cont {A} a.
Arguments Returned {A} err.

Section Engine.

Context (U : UnicodeTables) {E : Type} (X : Outside E).

(** Everything a step can touch: the host's files, the world outside,
    and the record of requests sent and lines logged. *)
Record World := {
  host : Host;
  env : E;
  calls : list docker.Call;
  logs : list LogEntry
}.

Definition setHost (w : World) (h : Host) : World :=
  {| host := h; env := env w; calls := calls w; logs := logs w |}.

Definition M (A : Type) : Type := World -> Outcome A * World.

Definition ret {A} (a : A) : M A := fun w => (Cont a, w).

Definition bind {A B} (m : M A) (k : A -> M B) : M B :=
  fun w =>
    match m w with
    | (Cont a, w') => k a w'
    | (Returned e, w') => (Returned e, w')
    end.

Notation "x <- m ;; k" := (bind m (fun x => k))
  (at level 100, m at next level, right associativity).
Notation "m ;;; k" := (bind m (fun _ => k))
  (at level 100, right associativity).

(** [return err] *)
Definition returnErr {A} (err : option error) : M A :=
  fun w => (Returned err, w).

(** [if err != nil { return err }] *)
Definition check (err : option error) : M unit :=
  match err with
  | Some _ => returnErr err
  | None => ret tt
  end.

(** [v, err := f(); if err != nil { return err }] *)
Definition try {A} (r : Res A) : M A :=
  match r with
  | Ok a => ret a
  | Err e => returnErr (Some e)
  end.

(** a request to the daemon: recorded, then answered from outside *)
Definition request {A} (c : docker.Call) (f : E -> A * E) : M A :=
  fun w =>
    let (a, e') := f (env w) in
    (Cont a, {| host := host w; env := e'; calls := calls w ++ [c]; logs := logs w |}).

(** any other answer from outside *)
Definition outside {A} (f : E -> A * E) : M A :=
  fun w =>
    let (a, e') := f (env w) in
    (Cont a, {| host := host w; env := e'; calls := calls w; logs := logs w |}).

(** a system call on the host, left with its error when it fails *)
Definition sys (f : Host -> Res Host) : M unit :=
  fun w =>
    match f (host w) with
    | Ok h => (Cont tt, setHost w h)
    | Err e => (Returned (Some e), w)
    end.

Definition getHost : M Host := fun w => (Cont (host w), w).

Definition logf (l : Level) (fmt : string) (a : list LogArg) : M unit :=
  fun w =>
    (Cont tt, {| host := host w; env := env w; calls := calls w;
                 logs := logs w ++ [{| level := l; format := fmt; args := a |}] |}).

(** the value a function returns: reaching its end is [return nil] *)
Definition run (m : M unit) (w : World) : option error * World :=
  match m w with
  | (Cont _, w') => (None, w')
  | (Returned e, w') => (e, w')
  end.

(** calling a function that returns an error *)
Definition call (f : World -> option error * World) : M (option error) :=
  fun w => let (e, w') := f w in (Cont e, w').

Definition docker_ := client X.

(** *** [replaceFromField] *)

(** the loop over [node.Children], which rewrites the nodes in place *)
Fixpoint rewriteChildren (b : Builder) (m : Manifest) (children : list Node)
  : Res (list Node) :=
  match children with
  | [] => Ok []
  | child :: rest =>
      if String.eqb (Value child) "from" then
        (* found it. is it from anyone we know? *)
        match Next child with
        | None => Err "invalid Dockerfile. No valid FROM found"
        | Some nx =>
            let imageName := Value nx in
            match FindStepByName m imageName with
            | Err e => Err e
            | Ok found =>
                let child' :=
                  match found with
                  | Some st => setNext child (Some (setValue nx (uniqueStepName U b st)))
                  | None => child
                  end in
                match rewriteChildren b m rest with
                | Ok rest' => Ok (child' :: rest')
                | Err e => Err e
                end
            end
        end
      else
        match rewriteChildren b m rest with
        | Ok rest' => Ok (child :: rest')
        | Err e => Err e
        end
  end.

(** this replaces the FROM field in the Dockerfile to one with the
    previous step's unique name; [m] is [step.Manifest] *)
Definition replaceFromField (b : Builder) (m : Manifest) (step : Step)
  : World -> option error * World :=
  run (
    logf Notice "Parsing and converting '%s'" [AStr (Dockerfile step)] ;;;
    h <- getHost ;;
    rwc <- try (os.Open h (path.Join [Workdir (Conf b); Dockerfile step])) ;;
    node <- try (Parse X rwc) ;;
    children <- try (rewriteChildren b m (Children node)) ;;
    let node := setChildren node children in
    (* did it have any effect? *)
    logf Debug "Writing the new Dockerfile into %s" [AStr (Dockerfile step +:+ ".generated")] ;;;
    sys (fun h => ioutil.WriteFile h (uniqueDockerfile b step) (dumpDockerfile U node) 420) ;;;
    ret tt).

(** *** [createContainer] *)

Definition wordByte (c : ascii) : bool :=
  let x := byte_of c in
  ((97 <=? x) && (x <=? 122)) || ((65 <=? x) && (x <=? 90))
  || ((48 <=? x) && (x <=? 57)) || (x =? 95) || (x =? 45).

(** [regexp "/?[^a-zA-Z0-9_-]+"] with [ReplaceAllString(s, "-")]: a
    match is a longest run of bytes outside the class, and each run
    becomes one dash; [inRun] tells that the byte before was in a run *)
Fixpoint replaceRuns (inRun : bool) (s : string) : string :=
  match s with
  | EmptyString => EmptyString
  | String c t =>
      if wordByte c then String c (replaceRuns false t)
      else if inRun then replaceRuns true t
      else String "-"%char (replaceRuns true t)
  end.

Definition createContainer (b : Builder) (step : Step) : M docker.Container :=
  let config :=
    {| docker.AttachStdout := true;
       docker.AttachStdin := false;
       docker.AttachStderr := true;
       docker.Image := uniqueStepName U b step;
       docker.Cmd := ["/bin/bash"];
       docker.Tty := true |} in
  suffix <- outside (uniuriNew X) ;;
  let containerName := replaceRuns false (uniqueStepName U b step) +:+ "." +:+ suffix in
  let opts := {| docker.cName := containerName; docker.cConfig := config |} in
  r <- request (docker.CreateContainer opts) (docker.doCreateContainer _ docker_ opts) ;;
  try r.

(** *** [copyToHost] *)

(** the [for] loop over the entries of the archive *)
Fixpoint extract (a : Artifact) (destFile : string)
    (es : list tar.Entry) (trailer : option error) : M unit :=
  match es with
  | [] =>
      match trailer with
      | None => ret tt                       (* io.EOF: end of tar archive *)
      | Some e => returnErr (Some e)
      end
  | hdr :: rest =>
      if Ascii.eqb (tar.Typeflag hdr) tar.TypeReg then
        logf Info "Copying from %s to %s" [AStr (Source a); AStr destFile] ;;;
        sys (fun h => os.Create h destFile) ;;;
        sys (fun h => Ok (os.write h destFile (tar.Body hdr))) ;;;
        check (tar.CopyErr hdr) ;;;
        extract a destFile rest trailer
      else returnErr (Some "Invalid header type")
  end.

(** [os.FileMode(perms[a.Source])|0700] *)
Definition artifactMode (a : Artifact) (perms : gmap string Z) : Z :=
  Z.lor (os.FileMode (default 0 (perms !! Source a))) 448.

(** where the artifact goes: [destPath] and [destFile] of [copyToHost] *)
Definition destPath (b : Builder) (a : Artifact) : string :=
  path.Join [Workdir (Conf b); Dest a].

Definition destFile (b : Builder) (a : Artifact) : string :=
  path.Join [destPath b a; filepath.Base (Source a)].

Definition copyToHost (b : Builder) (a : Artifact) (container : string)
    (perms : gmap string Z) : World -> option error * World :=
  run (
    (* create the artifacts distination folder if not there *)
    sys (fun h => os.MkdirAll h (destPath b a)) ;;;
    r <- request (docker.DownloadFromContainer container (Source a))
           (docker.doDownloadFromContainer _ docker_ container (Source a)) ;;
    out <- try r ;;
    (* create artifact file on the host *)
    extract a (destFile b a) (tar.entries out) (tar.trailer out) ;;;
    logf Debug "Setting file permissions for %s to %d"
      [AStr (destFile b a); AInt (default 0 (perms !! Source a))] ;;;
    sys (fun h => os.Chmod h (destFile b a) (artifactMode a perms)) ;;;
    ret tt).

(** *** [BuildStep] *)

Definition execOptions (container : string) (tty : bool) (cmd : list string)
  : docker.CreateExecOptions :=
  {| docker.eContainer := container;
     docker.eAttachStdin := false;
     docker.eAttachStdout := true;
     docker.eAttachStderr := true;
     docker.eTty := tty;
     docker.eCmd := cmd |}.

(** the options of the three kinds of exec *)
Definition cleanupStream : docker.StartExecOptions :=
  {| docker.OutputStream := docker.Stdout;
     docker.ErrorStream := docker.Stderr;
     docker.RawTerminal := true;
     docker.Detach := false |}.

Definition statStream : docker.StartExecOptions :=
  {| docker.OutputStream := docker.Buffer;
     docker.ErrorStream := docker.Stderr;
     docker.RawTerminal := false;
     docker.Detach := false |}.

Definition statCommand (container : string) (art : Artifact) : docker.CreateExecOptions :=
  execOptions container false ["stat"; "--format='%a'"; Source art].

Definition commandStream : docker.StartExecOptions :=
  {| docker.OutputStream := docker.Buffer;
     docker.ErrorStream := docker.Stderr;
     docker.RawTerminal := true;
     docker.Detach := false |}.

Definition startContainer (id : string) : M unit :=
  e <- request (docker.StartContainer id) (docker.doStartContainer _ docker_ id) ;;
  check e.

Definition stopContainer (id : string) : M unit :=
  logf Debug "Stopping the container %s" [AStr id] ;;;
  e <- request (docker.StopContainer id 0) (docker.doStopContainer _ docker_ id 0) ;;
  check e.

Definition createExec (opts : docker.CreateExecOptions) : M docker.Exec :=
  r <- request (docker.CreateExec opts) (docker.doCreateExec _ docker_ opts) ;;
  try r.

Definition startExec (id : string) (opts : docker.StartExecOptions)
  : M (string * option error) :=
  request (docker.StartExec id opts) (docker.doStartExec _ docker_ id opts).

(** the loop over [step.Cleanup.Commands] *)
Fixpoint runCleanup (container : string) (cmds : list string) : M unit :=
  match cmds with
  | [] => ret tt
  | cmd :: rest =>
      logf Debug "Running cleanup command %s on %s" [AStr cmd; AStr container] ;;;
      (* create an exec for the commands *)
      execObj <- createExec (execOptions container false (strings.Split cmd ch_space)) ;;
      r <- startExec (docker.execID execObj) cleanupStream ;;
      match snd r with
      | Some e => logf Error "Failed to run cleanup commands %s" [AStr e]
      | None => ret tt
      end ;;;
      runCleanup container rest
  end.

(** the branch taken when squashing is on and the step has cleanup
    commands: run them, commit, stop, export, squash, load *)
Definition cleanupAndSquash (b : Builder) (step : Step) (container : string) : M unit :=
  (* start the container *)
  logf Notice "Starting container %s to run cleanup commands" [AStr container] ;;;
  startContainer container ;;;
  runCleanup container (Commands (Cleanup step)) ;;;
  (* commit the container *)
  logf Debug "Commiting the container %s" [AStr container] ;;;
  r <- request (docker.CommitContainer container) (docker.doCommitContainer _ docker_ container) ;;
  img <- try r ;;
  stopContainer container ;;;
  r <- outside (tempName X "habitus-export-") ;;
  tmpFile <- try r ;;
  sys (fun h => os.createWith 384 h tmpFile) ;;;
  sys (fun h => os.Create h tmpFile) ;;;
  (* save the container *)
  logf Notice "Exporting cleaned up container %s to %s" [AStr (docker.imageID img); AStr tmpFile] ;;;
  r <- request (docker.ExportImage (docker.imageID img))
         (docker.doExportImage _ docker_ (docker.imageID img)) ;;
  sys (fun h => Ok (os.write h tmpFile (fst r))) ;;;
  check (snd r) ;;;
  (* Squash *)
  r <- outside (tempName X "habitus-export-") ;;
  sqTmpFile <- try r ;;
  sys (fun h => os.createWith 384 h sqTmpFile) ;;;
  logf Notice "Squashing image %s into %s" [AStr sqTmpFile; AStr (docker.imageID img)] ;;;
  h <- getHost ;;
  r <- outside (Squash X h tmpFile sqTmpFile (uniqueStepName U b step)) ;;
  sys (fun h => Ok (os.write h sqTmpFile (fst r))) ;;;
  check (snd r) ;;;
  logf Debug "Removing exported temp files" [] ;;;
  sys (fun h => os.Remove h tmpFile) ;;;
  (* Load *)
  h <- getHost ;;
  sqashedFile <- try (os.Open h sqTmpFile) ;;
  logf Debug "Loading squashed image into docker" [] ;;;
  let input := match sqashedFile with ReadFile d => d | ReadDir => EmptyString end in
  e <- request (docker.LoadImage input) (docker.doLoadImage _ docker_ input) ;;
  check e ;;;
  sys (fun h => os.Remove h sqTmpFile).

(** what is left of the output of [stat] once the quotes and the line
    ends are taken out *)
Definition permsString (out : string) : string :=
  strings.ReplaceAll (strings.ReplaceAll out ch_squote EmptyString) ch_nl EmptyString.

(** the first loop over [step.Artifacts]: one [stat] per artifact, its
    answer stored in [permMap] *)
Fixpoint statPerms (container : string) (arts : list Artifact)
    (permMap : gmap string Z) : M (gmap string Z) :=
  match arts with
  | [] => ret permMap
  | art :: rest =>
      execObj <- createExec (statCommand container art) ;;
      r <- startExec (docker.execID execObj) statStream ;;
      match snd r with
      | Some e =>
          logf Error "Failed to fetch artifact permissions for %s: %s" [AStr (Source art); AStr e]
      | None => ret tt
      end ;;;
      let (perms, err) := strconv.Atoi (permsString (fst r)) in
      match err with
      | Some e =>
          logf Error "Failed to fetch artifact permissions for %s: %s"
            [AStr (Source art); ANumErr e]
      | None => ret tt
      end ;;;
      let permMap := <[Source art := perms]> permMap in
      logf Debug "Permissions for %s is %d" [AStr (Source art); AInt perms] ;;;
      statPerms container rest permMap
  end.

(** the second loop over [step.Artifacts] *)
Fixpoint copyAll (b : Builder) (container : string) (arts : list Artifact)
    (permMap : gmap string Z) : M unit :=
  match arts with
  | [] => ret tt
  | art :: rest =>
      err <- call (copyToHost b art container permMap) ;;
      check err ;;;
      copyAll b container rest permMap
  end.

Definition fetchArtifacts (b : Builder) (step : Step) (container : string) : M unit :=
  logf Notice "Starting container %s to fetch artifact permissions" [AStr container] ;;;
  startContainer container ;;;
  permMap <- statPerms container (Artifacts step) ∅ ;;
  stopContainer container ;;;
  logf Notice "Copying artifacts from %s" [AStr container] ;;;
  copyAll b container (Artifacts step) permMap.

(** any commands to run? *)
Definition runCommand (step : Step) (container : string) : M unit :=
  logf Notice "Starting container %s to run commands" [AStr container] ;;;
  startContainer container ;;;
  let execOpts := execOptions container true (strings.Split (Command step) ch_space) in
  execObj <- createExec execOpts ;;
  logf Notice "Running command %s on container %s" [AList (docker.eCmd execOpts); AStr container] ;;;
  r <- startExec (docker.execID execObj) commandStream ;;
  match snd r with
  | Some e => logf Error "Failed to execute command '%s' due to %s" [AStr (Command step); AStr e]
  | None => ret tt
  end ;;;
  logf Notice (newline +:+ "%s") [AStr (fst r)] ;;;
  (* inspect, err := b.docker.InspectExec(execObj.ID) *)
  r <- request (docker.InspectExec (docker.execID execObj))
         (docker.doInspectExec _ docker_ (docker.execID execObj)) ;;
  let (inspect, err) := r in
  check err ;;;
  (if negb (docker.ExitCode inspect =? 0) then
     logf Error "Running command %s on container %s exit with exit code %d"
       [AList (docker.eCmd execOpts); AStr container; AInt (docker.ExitCode inspect)] ;;;
     returnErr err                         (* return err *)
   else
     logf Notice "Running command %s on container %s exit with exit code %d"
       [AList (docker.eCmd execOpts); AStr container; AInt (docker.ExitCode inspect)]) ;;;
  stopContainer container.

Definition needsContainer (step : Step) : bool :=
  (0 <? length (Artifacts step))%nat || (0 <? length (Commands (Cleanup step)))%nat
  || negb (String.eqb (Command step) EmptyString).

Definition removeOptions (container : string) : docker.RemoveContainerOptions :=
  {| docker.rID := container; docker.RemoveVolumes := true; docker.Force := true |}.

(** the head of [BuildStep]: rewrite the Dockerfile, then have the image
    built from the generated file *)
Definition buildImage (b : Builder) (m : Manifest) (step : Step) : M unit :=
  logf Notice "Building %s" [AStr (Name step)] ;;;
  (* fix the Dockerfile *)
  err <- call (replaceFromField b m step) ;;
  check err ;;;
  let buildArgs :=
    map (fun s => {| docker.Name := Key s; docker.Value := configuration.Value s |})
      (BuildArgs (Conf b)) in
  (* call Docker to build the Dockerfile (from the parsed file) *)
  logf Info "Building the %s image from %s"
    [AStr (uniqueStepName U b step); AStr (filepath.Base (uniqueDockerfile b step))] ;;;
  let opts :=
    {| docker.bName := uniqueStepName U b step;
       docker.bDockerfile := filepath.Base (uniqueDockerfile b step);
       docker.bNoCache := NoCache (Conf b);
       docker.bSuppressOutput := SuppressOutput (Conf b);
       docker.bRmTmpContainer := RmTmpContainers (Conf b);
       docker.bForceRmTmpContainer := ForceRmTmpContainer (Conf b);
       docker.bContextDir := Workdir (Conf b);
       docker.bBuildArgs := buildArgs;
       docker.bAuthConfigs := auth b |} in
  err <- request (docker.BuildImage opts) (docker.doBuildImage _ docker_ opts) ;;
  check err.

(** remove the created container *)
Definition removeContainer (id : string) : M unit :=
  logf Debug "Removing built container %s" [AStr id] ;;;
  err <- request (docker.RemoveContainer (removeOptions id))
           (docker.doRemoveContainer _ docker_ (removeOptions id)) ;;
  check err.

(** if there are any artifacts to be picked up, create a container and
    copy them over; we also need a container if there are cleanup
    commands *)
Definition withContainer (b : Builder) (step : Step) : M unit :=
  if needsContainer step then
    logf Notice "Building container based on the image" [] ;;;
    (* create a container *)
    container <- createContainer b step ;;
    let id := docker.ID container in
    (if negb (NoSquash (Conf b)) && (0 <? length (Commands (Cleanup step)))%nat
     then cleanupAndSquash b step id else ret tt) ;;;
    (if (0 <? length (Artifacts step))%nat
     then fetchArtifacts b step id else ret tt) ;;;
    (if negb (String.eqb (Command step) EmptyString)
     then runCommand step id else ret tt) ;;;
    removeContainer id
  else ret tt.

(** BuildStep builds a single step; [m] is [step.Manifest] *)
Definition BuildStep (b : Builder) (m : Manifest) (step : Step)
  : World -> option error * World :=
  run (
    buildImage b m step ;;;
    withContainer b step ;;;
    (* clean up the parsed docker file. It will remain there if there was
       a problem *)
    sys (fun h => os.Remove h (uniqueDockerfile b step))).

(** The statements of [BuildStep] that come before the ad hoc command,
    for a step that has one: they end with the id of the container. *)
Definition untilCommand (b : Builder) (m : Manifest) (step : Step) : M string :=
  buildImage b m step ;;;
  logf Notice "Building container based on the image" [] ;;;
  container <- createContainer b step ;;
  let id := docker.ID container in
  (if negb (NoSquash (Conf b)) && (0 <? length (Commands (Cleanup step)))%nat
   then cleanupAndSquash b step id else ret tt) ;;;
  (if (0 <? length (Artifacts step))%nat
   then fetchArtifacts b step id else ret tt) ;;;
  ret id.

(** ... and the statements from the ad hoc command on *)
Definition fromCommand (b : Builder) (step : Step) (id : string) : M unit :=
  runCommand step id ;;;
  removeContainer id ;;;
  sys (fun h => os.Remove h (uniqueDockerfile b step)).

End Engine.

(** ** What the design document compares the code with *)

(** the argument tokens of an instruction: the chain of [Next] links *)
Fixpoint chain (n : Node) : list Node :=
  match Next n with
  | None => []
  | Some m => m :: chain m
  end.

(** An instruction written back word for word, as the design document
    describes the generated file: the instruction, its flags as their raw
    text, its argument tokens, one space between them. *)
Definition verbatimLine (n : Node) : string :=
  Value n +:+ str_concat (map (fun f => " " +:+ f) (Flags n))
          +:+ str_concat (map (fun t => " " +:+ Value t) (chain n)).

(** a FROM instruction without an argument token *)
Definition bareFrom (c : Node) : Prop := Value c = "from" /\ Next c = None.

(** any instruction but FROM *)
Definition notFrom (c : Node) : Prop := Value c <> "from".

(** the decimal value of a string of digits, [None] when the string is
    empty or holds anything else *)
Fixpoint atoi10_from (s : string) (n : Z) : option Z :=
  match s with
  | EmptyString => Some n
  | String c t =>
      match strconv.digitOf c with
      | Some d => atoi10_from t (n * 10 + d)
      | None => None
      end
  end.

Definition atoi10 (s : string) : option Z :=
  match s with
  | EmptyString => None
  | _ => atoi10_from s 0
  end.

(** the mask of the owner's write and execute bits (0300) *)
Definition ownerWX : Z := 192.

Definition isCreateContainer (c : docker.Call) : bool :=
  match c with docker.CreateContainer _ => true | _ => false end.

Definition isRemoveContainer (c : docker.Call) : bool :=
  match c with docker.RemoveContainer _ => true | _ => false end.

(** the line logged for an ad hoc command that ends with [code] *)
Definition exitCodeError (step : Step) (id : string) (code : Z) : LogEntry :=
  {| level := Error;
     format := "Running command %s on container %s exit with exit code %d";
     args := [AList (strings.Split (Command step) ch_space); AStr id; AInt code] |}.

(** an entry for a regular file that is read to its end *)
Definition regular (e : tar.Entry) : Prop :=
  tar.Typeflag e = tar.TypeReg /\ tar.CopyErr e = None.

(** the bytes the destination holds after the entries were copied one
    after the other over a file that held [d] *)
Definition lastBody (es : list tar.Entry) (d : string) : string :=
  fold_left (fun _ e => tar.Body e) es d.

(** the mode of a file that [os.Create] opens: the one it has, or 0666
    less the umask *)
Definition createdMode (h : Host) (p : string) : Z :=
  match files h !! p with
  | Some f => mode f
  | None => Z.land 438 (Z.lnot (umask h))
  end.

(** a node without children *)
Definition leaf (n : Node) : Prop := Children n = [].

(** a string that does not start with white space nor with a byte that
    is not ASCII, and that does not end with one either *)
Definition startsPlain (s : string) : bool :=
  match s with
  | EmptyString => true
  | String c _ => negb (strings.asciiSpace c) && (byte_of c <? RuneSelf)
  end.

Definition plainEnds (s : string) : bool :=
  startsPlain s && startsPlain (str_rev s).

(** the line the generated file gets for a child of the root *)
Definition dumpedLine (U : UnicodeTables) (c : Node) : string :=
  (if String.eqb (Value c) "cmd" then Original c else dumpDockerfile U c) +:+ newline.

(** a computation that never leaves the function with [nil] before its
    end: whenever it returns early, it returns an error *)
Definition failsLoudly {E A : Type} (m : M (E:=E) A) : Prop :=
  forall w e w', m w = (Returned e, w') -> is_Some e.

(** ** A scripted world, to run the builder on *)

Module Sample.

(** tables that leave every string alone; the sample inputs are ASCII *)
Definition tables : UnicodeTables :=
  {| MapToLower := fun s => s;
     TrimFuncIsSpace := fun s => s;
     TrimRightFuncIsSpace := fun s => s;
     QuoteRunes := fun s => s |}.

Record Script := {
  tree : Node;                 (* what the parser finds in the Dockerfile *)
  statOut : string;            (* what an exec prints *)
  exitCode : Z;                (* the exit code an exec ends with *)
  archive : tar.Archive        (* what a download holds *)
}.

(** a daemon that carries out every request; the state outside counts the
    temporary files handed out *)
Definition daemon (s : Script) : docker.Client nat :=
  {| docker.doBuildImage := fun _ e => (None, e);
     docker.doCreateContainer := fun _ e => (Ok {| docker.ID := "c1" |}, e);
     docker.doStartContainer := fun _ e => (None, e);
     docker.doCreateExec := fun _ e => (Ok {| docker.execID := "x1" |}, e);
     docker.doStartExec := fun _ _ e => ((statOut s, None), e);
     docker.doInspectExec := fun _ e => (({| docker.ExitCode := exitCode s |}, None), e);
     docker.doCommitContainer := fun _ e => (Ok {| docker.imageID := "i1" |}, e);
     docker.doStopContainer := fun _ _ e => (None, e);
     docker.doExportImage := fun _ e => (("exported", None), e);
     docker.doLoadImage := fun _ e => (None, e);
     docker.doDownloadFromContainer := fun _ _ e => (Ok (archive s), e);
     docker.doRemoveContainer := fun _ e => (None, e) |}.

Definition world (s : Script) : Outside nat :=
  {| client := daemon s;
     Parse := fun _ => Ok (tree s);
     Squash := fun _ _ _ _ e => (("squashed", None), e);
     uniuriNew := fun e => ("r4nd0m", e);
     tempName := fun _ e =>
       (Ok (if Nat.even e then "/tmp/habitus-export-1" else "/tmp/habitus-export-2"), S e) |}.

Definition conf : Config :=
  {| Workdir := "/w"; NoSquash := false; NoCache := false; SuppressOutput := false;
     RmTmpContainers := false; ForceRmTmpContainer := false; BuildArgs := [] |}.

Definition step (name cmd : string) (arts : list Artifact) (cleanup : list string) : Step :=
  {| Name := name; Label := EmptyString; Dockerfile := "Dockerfile";
     Artifacts := arts; Cleanup := {| Commands := cleanup |}; Command := cmd |}.

Definition builder (m : Manifest) (uid : string) : Builder :=
  {| Build := m; UniqueID := uid; Conf := conf; auth := None |}.

(** an instruction line: the instruction, its flags, its argument tokens *)
Fixpoint tokens (l : list string) : option Node :=
  match l with
  | [] => None
  | v :: r => Some (token v (tokens r))
  end.

Definition line (instr : string) (flags args : list string) (orig : string) : Node :=
  mkNode instr (tokens args) [] orig flags.

Definition file (lines : list Node) : Node :=
  mkNode EmptyString None lines EmptyString [].

Definition disk : Host :=
  {| files := {[ "/w/Dockerfile" := {| data := "FROM base"; mode := 420 |} ]};
     dirs := {[ "/w"; "/tmp" ]};
     umask := 18 |}.

Definition start : World (E := nat) :=
  {| host := disk; env := 0%nat; calls := []; logs := [] |}.

Definition oneFile (body : string) : tar.Archive :=
  {| tar.entries := [ {| tar.Typeflag := tar.TypeReg; tar.Body := body; tar.CopyErr := None |} ];
     tar.trailer := None |}.

End Sample.

(** *** Sample runs *)

Definition noFromScript : Sample.Script :=
  {| Sample.tree := Sample.file [Sample.line "run" [] ["make"] "RUN make"];
     Sample.statOut := EmptyString;
     Sample.exitCode := 0;
     Sample.archive := Sample.oneFile EmptyString |}.

Definition bareFromScript : Sample.Script :=
  {| Sample.tree := Sample.file [Sample.line "from" [] [] "FROM"];
     Sample.statOut := EmptyString;
     Sample.exitCode := 0;
     Sample.archive := Sample.oneFile EmptyString |}.

Definition soloManifest : Manifest := {| Steps := [Sample.step "app" EmptyString [] []] |}.

(** a manifest whose first image lives in a registry named with its port *)
Definition portManifest : Manifest :=
  {| Steps := [Sample.step "registry:5000/app:1.0" EmptyString [] [];
               Sample.step "web" EmptyString [] []] |}.

Definition portFrom : Node :=
  Sample.line "from" [] ["registry:5000/app:1.0"] "FROM registry:5000/app:1.0".

(** a step whose ad hoc command, [false], ends with exit code 1 while the
    daemon carries out every request *)
Definition failingCommandScript : Sample.Script :=
  {| Sample.tree := Sample.file [Sample.line "from" [] ["ubuntu"] "FROM ubuntu"];
     Sample.statOut := EmptyString;
     Sample.exitCode := 1;
     Sample.archive := Sample.oneFile EmptyString |}.

Definition failingCommandStep : Step := Sample.step "app" "false" [] [].

Definition failingCommandRun : option error * World :=
  BuildStep Sample.tables (Sample.world failingCommandScript)
    (Sample.builder soloManifest "abc") soloManifest failingCommandStep Sample.start.

(** an artifact, and a run of the sample world that extracts it *)
Definition appBin : Artifact := {| Source := "/build/app.bin"; Dest := "out" |}.

Definition extractScript : Sample.Script :=
  {| Sample.tree := Sample.file [Sample.line "from" [] ["ubuntu"] "FROM ubuntu"];
     Sample.statOut := "'644'" +:+ newline;
     Sample.exitCode := 0;
     Sample.archive := Sample.oneFile "ELF" |}.

Definition extractBuilder : Builder := Sample.builder soloManifest "abc".

(** the permission recorded for the sample artifact *)
Definition recorded (p : Z) : gmap string Z := {[ "/build/app.bin" := p ]}.

(** [COPY --from=b /a /b], as the parser returns it *)
Definition copyLine : Node :=
  Sample.line "copy" ["--from=b"] ["/a"; "/b"] "COPY --from=b /a /b".

Definition runLine : Node := Sample.line "run" [] ["make"; "install"] "RUN make install".

Definition dq : string := str1 ch_dquote.

(** a [stat] that prints 2^63, one more than an [int] holds *)
Definition hugeStatScript : Sample.Script :=
  {| Sample.tree := Sample.file [Sample.line "from" [] ["ubuntu"] "FROM ubuntu"];
     Sample.statOut := "'9223372036854775808'" +:+ newline;
     Sample.exitCode := 0;
     Sample.archive := Sample.oneFile "ELF" |}.

(** a [stat] that prints no number *)
Definition noStatScript : Sample.Script :=
  {| Sample.tree := Sample.file [Sample.line "from" [] ["ubuntu"] "FROM ubuntu"];
     Sample.statOut := "stat: cannot stat" +:+ newline;
     Sample.exitCode := 0;
     Sample.archive := Sample.oneFile "ELF" |}.

(** ** What the code shows beyond the design document *)

(** the mode of a file opened with [O_CREATE|O_TRUNC] and [perm]: the one
    it has, or [perm] less the umask *)
Definition modeAfterCreate (perm : Z) (h : Host) (p : string) : Z :=
  match files h !! p with
  | Some f => mode f
  | None => Z.land perm (Z.lnot (umask h))
  end.

(** two tokens that differ at most in their text *)
Definition sameButValue (n n' : Node) : Prop :=
  Next n' = Next n /\ Children n' = Children n
  /\ Original n' = Original n /\ Flags n' = Flags n.

(** two instructions that differ at most in the text of their first
    argument token, and not at all unless they are FROM instructions *)
Definition sameButImage (c c' : Node) : Prop :=
  Value c' = Value c /\ Original c' = Original c
  /\ Flags c' = Flags c /\ Children c' = Children c
  /\ match Next c, Next c' with
     | None, None => True
     | Some nx, Some nx' => sameButValue nx nx'
     | _, _ => False
     end
  /\ (Value c <> "from" -> c' = c).

(** the options [BuildStep] hands to [BuildImage] *)
Definition buildOptions (U : UnicodeTables) (b : Builder) (step : Step)
  : docker.BuildImageOptions :=
  {| docker.bName := uniqueStepName U b step;
     docker.bDockerfile := filepath.Base (uniqueDockerfile b step);
     docker.bNoCache := NoCache (Conf b);
     docker.bSuppressOutput := SuppressOutput (Conf b);
     docker.bRmTmpContainer := RmTmpContainers (Conf b);
     docker.bForceRmTmpContainer := ForceRmTmpContainer (Conf b);
     docker.bContextDir := Workdir (Conf b);
     docker.bBuildArgs :=
       map (fun s => {| docker.Name := Key s; docker.Value := configuration.Value s |})
         (BuildArgs (Conf b));
     docker.bAuthConfigs := auth b |}.

(** a step that needs no container *)
Definition plainStep (step : Step) : Prop :=
  Artifacts step = [] /\ Commands (Cleanup step) = [] /\ Command step = EmptyString.

(** a plain step and a tree for it *)
Definition plainScript : Sample.Script :=
  {| Sample.tree := Sample.file [Sample.line "from" [] ["ubuntu"] "FROM ubuntu";
                                 Sample.line "run" [] ["make"] "RUN make"];
     Sample.statOut := EmptyString;
     Sample.exitCode := 0;
     Sample.archive := Sample.oneFile EmptyString |}.

Definition plainSampleStep : Step := Sample.step "app" EmptyString [] [].

(** a daemon that refuses to build, and carries out everything else *)
Definition refusingDaemon (s : Sample.Script) : docker.Client nat :=
  {| docker.doBuildImage := fun _ e => (Some "build failed", e);
     docker.doCreateContainer := docker.doCreateContainer _ (Sample.daemon s);
     docker.doStartContainer := docker.doStartContainer _ (Sample.daemon s);
     docker.doCreateExec := docker.doCreateExec _ (Sample.daemon s);
     docker.doStartExec := docker.doStartExec _ (Sample.daemon s);
     docker.doInspectExec := docker.doInspectExec _ (Sample.daemon s);
     docker.doCommitContainer := docker.doCommitContainer _ (Sample.daemon s);
     docker.doStopContainer := docker.doStopContainer _ (Sample.daemon s);
     docker.doExportImage := docker.doExportImage _ (Sample.daemon s);
     docker.doLoadImage := docker.doLoadImage _ (Sample.daemon s);
     docker.doDownloadFromContainer := docker.doDownloadFromContainer _ (Sample.daemon s);
     docker.doRemoveContainer := docker.doRemoveContainer _ (Sample.daemon s) |}.

Definition refusingWorld (s : Sample.Script) : Outside nat :=
  {| client := refusingDaemon s;
     Parse := Parse (Sample.world s);
     Squash := Squash (Sample.world s);
     uniuriNew := uniuriNew (Sample.world s);
     tempName := tempName (Sample.world s) |}.

(** the lines of a Dockerfile built on the step [app] *)
Definition onAppLines : list Node :=
  [Sample.line "from" [] ["app"; "AS"; "build"] "FROM app AS build";
   Sample.line "run" ["--network=none"] ["make"] "RUN --network=none make"].

Definition onAppRewritten : list Node :=
  [Sample.line "from" [] ["app-abc"; "AS"; "build"] "FROM app AS build";
   Sample.line "run" ["--network=none"] ["make"] "RUN --network=none make"].

(** the text of a name up to its first colon *)
Fixpoint beforeColon (s : string) : string :=
  match s with
  | EmptyString => EmptyString
  | String c t => if Ascii.eqb c ch_colon then EmptyString else String c (beforeColon t)
  end.

Definition upperByte (c : ascii) : bool := (65 <=? byte_of c) && (byte_of c <=? 90).

(** a string without an upper-case ASCII letter *)
Fixpoint noUpper (s : string) : bool :=
  match s with
  | EmptyString => true
  | String c t => negb (upperByte c) && noUpper t
  end.

(** a string of letters, digits, underscores and dashes *)
Fixpoint wordOnly (s : string) : bool :=
  match s with
  | EmptyString => true
  | String c t => wordByte c && wordOnly t
  end.

(** the configuration [createContainer] gives the container *)
Definition containerConfig (U : UnicodeTables) (b : Builder) (step : Step) : docker.Config :=
  {| docker.AttachStdout := true;
     docker.AttachStdin := false;
     docker.AttachStderr := true;
     docker.Image := uniqueStepName U b step;
     docker.Cmd := ["/bin/bash"];
     docker.Tty := true |}.

Definition mixedCaseStep : Step := Sample.step "Registry.Example/My_App:V1:old" EmptyString [] [].

(** an entry that is not a regular file: a directory, a link *)
Definition irregular (e : tar.Entry) : Prop := tar.Typeflag e <> tar.TypeReg.

(** a daemon that never refuses to create an exec *)
Definition execsCreatable {E : Type} (X : Outside E) : Prop :=
  forall opts e, exists x e', docker.doCreateExec _ (client X) opts e = (Ok x, e').

(** the options of a request that creates an exec *)
Definition createdExec (c : docker.Call) : option docker.CreateExecOptions :=
  match c with
  | docker.CreateExec opts => Some opts
  | _ => None
  end.

(** an archive that holds a directory *)
Definition dirArchive : tar.Archive :=
  {| tar.entries := [ {| tar.Typeflag := "5"%char; tar.Body := EmptyString; tar.CopyErr := None |};
                      {| tar.Typeflag := tar.TypeReg; tar.Body := "ELF"; tar.CopyErr := None |} ];
     tar.trailer := None |}.

Definition dirScript : Sample.Script :=
  {| Sample.tree := Sample.file [Sample.line "from" [] ["ubuntu"] "FROM ubuntu"];
     Sample.statOut := "'755'" +:+ newline;
     Sample.exitCode := 0;
     Sample.archive := dirArchive |}.

(** a daemon whose execs print nothing and whose downloads fail *)
Definition silentDaemon (s : Sample.Script) : docker.Client nat :=
  {| docker.doBuildImage := docker.doBuildImage _ (Sample.daemon s);
     docker.doCreateContainer := docker.doCreateContainer _ (Sample.daemon s);
     docker.doStartContainer := docker.doStartContainer _ (Sample.daemon s);
     docker.doCreateExec := docker.doCreateExec _ (Sample.daemon s);
     docker.doStartExec := fun _ _ e => ((EmptyString, Some "exec failed to start"), e);
     docker.doInspectExec := docker.doInspectExec _ (Sample.daemon s);
     docker.doCommitContainer := docker.doCommitContainer _ (Sample.daemon s);
     docker.doStopContainer := docker.doStopContainer _ (Sample.daemon s);
     docker.doExportImage := docker.doExportImage _ (Sample.daemon s);
     docker.doLoadImage := docker.doLoadImage _ (Sample.daemon s);
     docker.doDownloadFromContainer := fun _ _ e => (Err "no such file in container", e);
     docker.doRemoveContainer := docker.doRemoveContainer _ (Sample.daemon s) |}.

Definition silentWorld (s : Sample.Script) : Outside nat :=
  {| client := silentDaemon s;
     Parse := Parse (Sample.world s);
     Squash := Squash (Sample.world s);
     uniuriNew := uniuriNew (Sample.world s);
     tempName := tempName (Sample.world s) |}.

Definition libSo : Artifact := {| Source := "/build/lib.so"; Dest := "out/lib" |}.

(** *** The requests of a step *)

(** a request that names a container names [id]; building an image and
    creating a container are not among them *)
Definition aimedAt (id : string) (c : docker.Call) : Prop :=
  match c with
  | docker.BuildImage _ | docker.CreateContainer _ => False
  | docker.StartContainer i | docker.StopContainer i _ | docker.CommitContainer i
  | docker.DownloadFromContainer i _ => i = id
  | docker.CreateExec o => docker.eContainer o = id
  | docker.RemoveContainer o => docker.rID o = id
  | docker.StartExec _ _ | docker.InspectExec _ | docker.ExportImage _
  | docker.LoadImage _ => True
  end.

(** a computation that keeps the requests recorded so far and adds only
    requests for which [P] holds *)
Definition emits {E R : Type} (P : docker.Call -> Prop)
    (f : World (E:=E) -> R * World (E:=E)) : Prop :=
  forall w, exists l, calls (snd (f w)) = calls w ++ l /\ Forall P l.

(** the requests of a step, in order: none, or the build of the image
    alone, or the build, the creation of a container, and requests that
    all name the same container *)
Definition stepRequests (U : UnicodeTables) (b : Builder) (step : Step)
    (l : list docker.Call) : Prop :=
  match l with
  | [] => True
  | c0 :: l1 =>
      c0 = docker.BuildImage (buildOptions U b step)
      /\ match l1 with
         | [] => True
         | c1 :: l2 =>
             (exists name, c1 = docker.CreateContainer
                                  {| docker.cName := name;
                                     docker.cConfig := containerConfig U b step |})
             /\ exists id, Forall (aimedAt id) l2
         end
  end.

(** a step with an artifact, a cleanup command and an ad hoc command *)
Definition fullStep : Step :=
  Sample.step "app" "true" [appBin] ["rm -rf /var/cache"].

(** *** [overwrite] *)

(** [os.OpenFile(p, os.O_RDWR|os.O_TRUNC, 0777)]: without [O_CREATE] the
    file has to be there, and it is emptied *)
Definition openTruncate (h : Host) (p : string) : Res Host :=
  match files h !! p with
  | Some f => Ok (os.setFiles h (<[p := {| data := EmptyString; mode := mode f |}]> (files h)))
  | None => if os.isDir h p then Err "is a directory" else Err "no such file or directory"
  end.

(** [overwrite], as what it does to the host: the file it returns is the
    path opened for writing *)
Definition overwrite (h : Host) (mpath : string) : Res Host :=
  match openTruncate h mpath with
  | Ok h' => Ok h'
  | Err _ =>
      match os.Create h mpath with
      | Ok h' => Ok h'
      | Err e => Err e
      end
  end.

(** *** Lines of a build file *)

(** the text of an instruction in the generated file: the original line
    for CMD, the instruction word for word otherwise *)
Definition sourceLine (c : Node) : string :=
  if String.eqb (Value c) "cmd" then Original c else verbatimLine c.

(** an instruction that is CMD or has neither flags nor nested nodes, and
    whose text is not empty and has no white space at its ends *)
Definition plainLine (c : Node) : Prop :=
  (Value c = "cmd" \/ (leaf c /\ Forall leaf (chain c) /\ Flags c = []))
  /\ plainEnds (sourceLine c) = true
  /\ sourceLine c <> EmptyString.

(** a step whose build file lies below the work directory *)
Definition subdirStep : Step :=
  {| Name := "app"; Label := EmptyString; Dockerfile := "docker/app/Dockerfile";
     Artifacts := []; Cleanup := {| Commands := [] |}; Command := EmptyString |}.

(** * Properties *)

#[local] Arguments dumpDockerfile : simpl never.
#[local] Arguments uniqueStepName : simpl never.
#[local] Arguments uniqueDockerfile : simpl never.
#[local] Arguments setChildren : simpl never.
#[local] Arguments setNext : simpl never.
#[local] Arguments setValue : simpl never.
#[local] Arguments path.Join : simpl never.
#[local] Arguments filepath.Base : simpl never.
#[local] Arguments os.Open : simpl never.
#[local] Arguments os.Create : simpl never.
#[local] Arguments os.createWith : simpl never.
#[local] Arguments os.write : simpl never.
#[local] Arguments os.Remove : simpl never.
#[local] Arguments os.Chmod : simpl never.
#[local] Arguments os.MkdirAll : simpl never.
#[local] Arguments ioutil.WriteFile : simpl never.
#[local] Arguments strconv.Atoi : simpl never.

(** ** The library models on sample inputs *)

Example Clean_ex1 : path.Clean "/work//out/../bin/./x" = "/work/bin/x".
Proof. reflexivity. Qed.
Example Clean_ex2 : path.Clean "../../a/../../b/" = "../../../b".
Proof. reflexivity. Qed.
Example Clean_ex3 : path.Clean "/../.." = "/".
Proof. reflexivity. Qed.
Example Clean_ex4 : path.Clean "a/.." = ".".
Proof. reflexivity. Qed.
Example Join_ex1 : path.Join ["/work"; "out"; "app.bin"] = "/work/out/app.bin".
Proof. reflexivity. Qed.
Example Base_ex1 : filepath.Base "/build/app.bin" = "app.bin".
Proof. reflexivity. Qed.
Example Base_ex2 : filepath.Base "/build/dir///" = "dir".
Proof. reflexivity. Qed.
Example Base_ex3 : filepath.Base "///" = "/".
Proof. reflexivity. Qed.
Example Atoi_ex1 : strconv.Atoi "644" = (644, None).
Proof. reflexivity. Qed.
Example Atoi_ex2 : strconv.Atoi "9223372036854775808" = (9223372036854775807, Some strconv.ErrRange).
Proof. reflexivity. Qed.
Example Atoi_ex3 : strconv.Atoi "-9223372036854775808" = (-9223372036854775808, None).
Proof. reflexivity. Qed.
Example Atoi_ex4 : strconv.Atoi "6x4" = (0, Some strconv.ErrSyntax).
Proof. reflexivity. Qed.
Example Atoi_ex5 : strconv.Atoi "99999999999999999999999x" = (9223372036854775807, Some strconv.ErrRange).
Proof. reflexivity. Qed.
Example Dir_ex1 : os.Dir "/work/out/app.bin" = "/work/out".
Proof. reflexivity. Qed.
Example Dir_ex2 : os.Dir "app.bin" = ".".
Proof. reflexivity. Qed.
Example ancestors_ex1 : os.ancestors "/work/out/bin" = ["/work/out"; "/work"; "/"].
Proof. reflexivity. Qed.
Example ancestors_ex2 : os.ancestors "out/bin" = ["out"; "."].
Proof. reflexivity. Qed.
Example syscallMode_ex1 : os.syscallMode (Z.lor (os.FileMode 644) 448) = 452.
Proof. reflexivity. Qed.

(** ** Strings *)

Lemma str_app_cons (c : ascii) (s t : string) : String c s +:+ t = String c (s +:+ t).
Proof. reflexivity. Qed.

Lemma str_app_nil_l (s : string) : EmptyString +:+ s = s.
Proof. reflexivity. Qed.

Lemma Split_nonempty (s : string) (sep : ascii) : strings.Split s sep <> [].
Proof.
  destruct s as [|c t]; simpl; [discriminate|].
  destruct (Ascii.eqb c sep); [discriminate|].
  destruct (strings.Split t sep); discriminate.
Qed.

(** a string without the separator is one piece *)
Lemma Split_none (s : string) :
  strings.Contains s ":" = false -> strings.Split s ch_colon = [s].
Proof.
  induction s as [|c t IH]; simpl; [reflexivity|].
  intros H. apply orb_false_iff in H as [Hp Hc].
  destruct (Ascii.eqb_spec c ch_colon) as [->|Hne].
  - simpl in Hp. destruct t; discriminate.
  - rewrite (IH Hc). reflexivity.
Qed.

(** the first piece ends at the first separator *)
Lemma Split_app (s t : string) :
  strings.Contains s ":" = false ->
  strings.Split (s +:+ ":" +:+ t) ch_colon = s :: strings.Split t ch_colon.
Proof.
  induction s as [|c r IH]; intros H.
  - reflexivity.
  - simpl in H. apply orb_false_iff in H as [Hp Hc].
    rewrite str_app_cons. simpl.
    destruct (Ascii.eqb_spec c ch_colon) as [->|Hne].
    + simpl in Hp. destruct r; discriminate.
    + rewrite (IH Hc). reflexivity.
Qed.

Lemma Contains_app (s t : string) : strings.Contains (s +:+ ":" +:+ t) ":" = true.
Proof.
  induction s as [|c r IH].
  - destruct t; reflexivity.
  - rewrite str_app_cons. simpl. rewrite IH. apply orb_true_r.
Qed.

Lemma prefix_one (d c : ascii) (t : string) :
  String.prefix (str1 d) (String c t) = true -> d = c.
Proof.
  change (String.prefix (str1 d) (String c t))
    with (if ascii_dec d c then String.prefix EmptyString t else false).
  destruct (ascii_dec d c); [auto|discriminate].
Qed.

(** where the name holds the separator the split has the two pieces that
    [uniqueStepName] takes, [parts[0]] and [parts[1]] *)
Lemma Split_two (s : string) :
  strings.Contains s ":" = true ->
  exists p0 p1 rest, strings.Split s ch_colon = p0 :: p1 :: rest.
Proof.
  induction s as [|c t IH]; [discriminate|].
  cbn [strings.Contains strings.Split].
  destruct (Ascii.eqb_spec c ch_colon) as [->|Hne].
  - intros _. destruct (strings.Split t ch_colon) as [|p1 rest] eqn:Hs.
    + destruct (Split_nonempty _ _ Hs).
    + eauto.
  - intros H. apply orb_true_iff in H as [Hp|Hc].
    + apply prefix_one in Hp. destruct (Hne (eq_sym Hp)).
    + destruct (IH Hc) as (p0 & p1 & rest & ->). eauto.
Qed.

(** ** Session-unique names ([uniqueStepName]) *)

Section NameProperties.

Context (U : UnicodeTables).

(** Without a tag the session token goes to the end of the name. *)
Lemma uniqueStepName_untagged (b : Builder) (st : Step) :
  UniqueID b <> EmptyString ->
  strings.Contains (Name st) ":" = false ->
  uniqueStepName U b st = strings.ToLower U (Name st +:+ "-" +:+ UniqueID b).
Proof.
  intros Hid Hc. unfold uniqueStepName.
  destruct (String.eqb_spec (UniqueID b) EmptyString) as [Heq|_]; [contradiction|].
  rewrite Hc. reflexivity.
Qed.

(** With one tag separator the token goes in front of it and the tag
    stays. *)
Lemma uniqueStepName_tagged (b : Builder) (st : Step) (base tag : string) :
  UniqueID b <> EmptyString ->
  Name st = base +:+ ":" +:+ tag ->
  strings.Contains base ":" = false ->
  strings.Contains tag ":" = false ->
  uniqueStepName U b st
  = strings.ToLower U (base +:+ "-" +:+ UniqueID b +:+ ":" +:+ tag).
Proof.
  intros Hid Hn Hb Ht. unfold uniqueStepName.
  destruct (String.eqb_spec (UniqueID b) EmptyString) as [Heq|_]; [contradiction|].
  rewrite Hn, Contains_app, (Split_app _ _ Hb), (Split_none _ Ht). reflexivity.
Qed.

(** C9: when the builder's UniqueID is the empty string, uniqueStepName
    returns the step's Name as it is: nothing is appended and the case of
    the letters is kept. *)
Theorem uniqueStepName_empty_id (b : Builder) (st : Step) :
  UniqueID b = EmptyString -> uniqueStepName U b st = Name st.
Proof.
  intros Hid. unfold uniqueStepName. rewrite Hid. reflexivity.
Qed.

End NameProperties.

Lemma uniqueStepName_empty_id_witness :
  uniqueStepName Sample.tables (Sample.builder {| Steps := [] |} EmptyString)
    (Sample.step "MyApp:Latest" EmptyString [] []) = "MyApp:Latest".
Proof.
  apply (uniqueStepName_empty_id Sample.tables). reflexivity.
Defined.

(** ** Rewriting the base image ([replaceFromField]) *)

Lemma setChildren_same (n : Node) : setChildren n (Children n) = n.
Proof. destruct n; reflexivity. Qed.

Section RewriteProperties.

Context (U : UnicodeTables).

(** A tree without FROM passes the loop as it is. *)
Lemma rewriteChildren_no_from (b : Builder) (m : Manifest) (children : list Node) :
  Forall notFrom children -> rewriteChildren U b m children = Ok children.
Proof.
  induction 1 as [|c l Hc _ IH]; simpl; [reflexivity|].
  destruct (String.eqb_spec (Value c) "from") as [Heq|_]; [contradiction|].
  rewrite IH. reflexivity.
Qed.

(** A FROM without argument stops the loop, wherever it stands. *)
Lemma rewriteChildren_bare_from (b : Builder) (m : Manifest) (children : list Node) :
  Exists bareFrom children ->
  rewriteChildren U b m children = Err "invalid Dockerfile. No valid FROM found".
Proof.
  induction children as [|c l IH]; intros H; [inversion H|].
  simpl. destruct (String.eqb_spec (Value c) "from") as [Heq|Hne].
  - destruct (Next c) as [nx|] eqn:Hnx; [|reflexivity].
    inversion H as [? ? [_ Hb]|? ? Hl]; subst; [congruence|].
    unfold FindStepByName. rewrite (IH Hl). reflexivity.
  - inversion H as [? ? [Hv _]|? ? Hl]; subst; [contradiction|].
    rewrite (IH Hl). reflexivity.
Qed.

(** A FROM whose image is no step of the manifest keeps its token. *)
Lemma rewriteChildren_unknown_image (b : Builder) (m : Manifest)
    (child nx : Node) (rest rest' : list Node) :
  Value child = "from" -> Next child = Some nx ->
  List.find (fun s => String.eqb (Name s) (Value nx)) (Steps m) = None ->
  rewriteChildren U b m rest = Ok rest' ->
  rewriteChildren U b m (child :: rest) = Ok (child :: rest').
Proof.
  intros Hv Hn Hf Hr. simpl. rewrite Hv, Hn. simpl.
  unfold FindStepByName. rewrite Hf, Hr. reflexivity.
Qed.

(** A FROM whose image is the name of a step gets that step's
    session-unique name as its token. *)
Lemma rewriteChildren_known_image (b : Builder) (m : Manifest)
    (child nx : Node) (st : Step) (rest rest' : list Node) :
  Value child = "from" -> Next child = Some nx ->
  List.find (fun s => String.eqb (Name s) (Value nx)) (Steps m) = Some st ->
  rewriteChildren U b m rest = Ok rest' ->
  rewriteChildren U b m (child :: rest)
  = Ok (setNext child (Some (setValue nx (uniqueStepName U b st))) :: rest')
  /\ Name st = Value nx.
Proof.
  intros Hv Hn Hf Hr. split.
  - simpl. rewrite Hv, Hn. simpl. unfold FindStepByName. rewrite Hf, Hr. reflexivity.
  - apply find_some in Hf as [_ Heq]. apply String.eqb_eq in Heq. exact Heq.
Qed.

Lemma setValue_same (n : Node) : setValue n (Value n) = n.
Proof. destruct n; reflexivity. Qed.

Lemma setNext_same (n nx : Node) : Next n = Some nx -> setNext n (Some nx) = n.
Proof. destruct n; simpl; intros ->; reflexivity. Qed.

(** Without a unique id the loop changes no token: the name it writes is
    the name it found. *)
Lemma rewriteChildren_empty_id (b : Builder) (m : Manifest) (children : list Node) :
  UniqueID b = EmptyString ->
  forall r, rewriteChildren U b m children = Ok r -> r = children.
Proof.
  intros Hid. induction children as [|c l IH]; simpl; intros r H.
  - inversion H. reflexivity.
  - destruct (String.eqb (Value c) "from").
    + destruct (Next c) as [nx|] eqn:Hnx; [|discriminate].
      unfold FindStepByName in H.
      destruct (rewriteChildren U b m l) as [l'|]; [|discriminate].
      rewrite (IH l' eq_refl) in H.
      destruct (find _ _) as [st|] eqn:Hf; inversion H; [|reflexivity].
      apply find_some in Hf as [_ Heq]. apply String.eqb_eq in Heq.
      unfold uniqueStepName. rewrite Hid. cbn [String.eqb]. rewrite Heq.
      rewrite setValue_same, (setNext_same _ _ Hnx). reflexivity.
    + destruct (rewriteChildren U b m l) as [l'|]; [|discriminate].
      inversion H. rewrite (IH l' eq_refl). reflexivity.
Qed.

Section WithWorld.

Context {E : Type} (X : Outside E).

(** C3: a FROM instruction without an argument token is a hard error, and
    it is raised before any generated file is written; a build file with
    no FROM instruction at all is not refused: its tree is written out
    unchanged and the rewrite reports no error. *)
Theorem replaceFromField_from_checks (b : Builder) (m : Manifest) (step : Step)
    (w : World) (rwc : Reader) (node : Node) :
  os.Open (host w) (path.Join [Workdir (Conf b); Dockerfile step]) = Ok rwc ->
  Parse X rwc = Ok node ->
  (Exists bareFrom (Children node) ->
     fst (replaceFromField U X b m step w) = Some "invalid Dockerfile. No valid FROM found"
     /\ host (snd (replaceFromField U X b m step w)) = host w)
  /\ (Forall notFrom (Children node) ->
      forall h',
        ioutil.WriteFile (host w) (uniqueDockerfile b step) (dumpDockerfile U node) 420 = Ok h' ->
        fst (replaceFromField U X b m step w) = None
        /\ host (snd (replaceFromField U X b m step w)) = h').
Proof.
  intros Hopen Hparse. split.
  - intros Hbare.
    unfold replaceFromField, run, bind, logf, getHost, try. simpl.
    rewrite Hopen. simpl. rewrite Hparse. simpl.
    rewrite (rewriteChildren_bare_from b m _ Hbare). simpl. split; reflexivity.
  - intros Hno h' Hwrite.
    unfold replaceFromField, run, bind, logf, getHost, try, sys, ret. simpl.
    rewrite Hopen. simpl. rewrite Hparse. simpl.
    rewrite (rewriteChildren_no_from b m _ Hno). simpl.
    rewrite setChildren_same, Hwrite. simpl. split; reflexivity.
Qed.

End WithWorld.

End RewriteProperties.

(** A Dockerfile that holds only [RUN make] is rewritten without error,
    and the generated file is there afterwards. *)
Lemma replaceFromField_accepts_no_from :
  let r := replaceFromField Sample.tables (Sample.world noFromScript)
             (Sample.builder soloManifest "abc") soloManifest
             (Sample.step "app" EmptyString [] []) Sample.start in
  Forall notFrom (Children (Sample.tree noFromScript))
  /\ fst r = None
  /\ files (host (snd r)) !! "/w/Dockerfile.generated"
     = Some {| data := "run make"; mode := 420 |}.
Proof.
  split; [|split].
  - repeat constructor. discriminate.
  - vm_compute. reflexivity.
  - vm_compute. reflexivity.
Qed.

Lemma replaceFromField_from_checks_witness :
  (let r := replaceFromField Sample.tables (Sample.world bareFromScript)
              (Sample.builder soloManifest "abc") soloManifest
              (Sample.step "app" EmptyString [] []) Sample.start in
   fst r = Some "invalid Dockerfile. No valid FROM found"
   /\ host (snd r) = host Sample.start)
  /\ (let r := replaceFromField Sample.tables (Sample.world noFromScript)
                 (Sample.builder soloManifest "abc") soloManifest
                 (Sample.step "app" EmptyString [] []) Sample.start in
      fst r = None
      /\ host (snd r)
         = os.setFiles Sample.disk
             (<["/w/Dockerfile.generated" := {| data := "run make"; mode := 420 |}]>
                (files Sample.disk))).
Proof.
  split.
  - refine (proj1 (replaceFromField_from_checks Sample.tables (Sample.world bareFromScript)
              (Sample.builder soloManifest "abc") soloManifest
              (Sample.step "app" EmptyString [] []) Sample.start
              (ReadFile "FROM base") (Sample.tree bareFromScript) _ _) _).
    + reflexivity.
    + reflexivity.
    + constructor. split; reflexivity.
  - refine (proj2 (replaceFromField_from_checks Sample.tables (Sample.world noFromScript)
              (Sample.builder soloManifest "abc") soloManifest
              (Sample.step "app" EmptyString [] []) Sample.start
              (ReadFile "FROM base") (Sample.tree noFromScript) _ _) _ _ _).
    + reflexivity.
    + reflexivity.
    + repeat constructor. discriminate.
    + reflexivity.
Defined.

(** C1: on a step named [registry:5000/app:1.0] and the unique id [abc]
    the rewritten FROM token is [registry-abc:5000/app]: the session token
    sits before the first colon and the tag [1.0] is gone, where the
    design document has the tag preserved. *)
Theorem rewrite_loses_tag_after_port (U : UnicodeTables) :
  let b := Sample.builder portManifest "abc" in
  uniqueStepName U b (Sample.step "registry:5000/app:1.0" EmptyString [] [])
  = "registry-abc:5000/app"
  /\ rewriteChildren U b portManifest [portFrom]
     = Ok [Sample.line "from" [] ["registry-abc:5000/app"] "FROM registry:5000/app:1.0"]
  /\ dumpDockerfile U (Sample.file [Sample.line "from" [] ["registry-abc:5000/app"]
                                     "FROM registry:5000/app:1.0"])
     = "from registry-abc:5000/app".
Proof.
  repeat split; vm_compute; reflexivity.
Qed.

(** ** The step executor ([BuildStep]) *)

(** C2: on a step whose ad hoc command ends with exit code 1, with a
    daemon that carries out every request, BuildStep returns nil after
    having created a container and without ever asking for its removal;
    the design document has the container removed on every path. *)
Theorem BuildStep_nonzero_exit_keeps_container :
  fst failingCommandRun = None
  /\ existsb isCreateContainer (calls (snd failingCommandRun)) = true
  /\ existsb isRemoveContainer (calls (snd failingCommandRun)) = false.
Proof.
  repeat split; vm_compute; reflexivity.
Qed.

(** C4: on the same step BuildStep returns nil and the generated build
    file is still on the host; the design document has it deleted
    whenever the step succeeds. *)
Theorem BuildStep_nonzero_exit_keeps_generated_file :
  fst failingCommandRun = None
  /\ files (host (snd failingCommandRun)) !! "/w/Dockerfile.generated"
     = Some {| data := "from ubuntu"; mode := 420 |}.
Proof.
  split; vm_compute; reflexivity.
Qed.

Section StepProperties.

Context (U : UnicodeTables) {E : Type} (X : Outside E).

Lemma needsContainer_command (step : Step) :
  Command step <> EmptyString -> needsContainer step = true.
Proof.
  intros H. unfold needsContainer.
  destruct (String.eqb_spec (Command step) EmptyString); [contradiction|].
  apply orb_true_r.
Qed.

(** [BuildStep] on a step with an ad hoc command is [untilCommand]
    followed by [fromCommand]. *)
Lemma BuildStep_split (b : Builder) (m : Manifest) (step : Step) (w : World) :
  Command step <> EmptyString ->
  BuildStep U X b m step w
  = match untilCommand U X b m step w with
    | (Cont id, w1) => run (fromCommand X b step id) w1
    | (Returned e, w1) => (e, w1)
    end.
Proof.
  intros Hc. unfold BuildStep, withContainer, untilCommand, fromCommand, run, bind.
  rewrite (needsContainer_command _ Hc).
  destruct (String.eqb_spec (Command step) EmptyString); [contradiction|].
  cbn [negb]. unfold ret.
  repeat (cbv beta;
          match goal with
          | |- context [match ?t with pair _ _ => _ end] =>
              lazymatch t with
              | context [match _ with pair _ _ => _ end] => fail
              | _ => destruct t as [[?|?] ?]; try reflexivity
              end
          end).
Qed.

(** what the ad hoc command leaves behind when its exit code is not zero:
    the function is left with nil, the error line is logged *)
Lemma runCommand_nonzero_exit (step : Step) (id : string) (w : World)
    (e1 e2 e3 e4 : E) (x : docker.Exec) (out : string * option error)
    (inspect : docker.ExecInspect) :
  docker.doStartContainer _ (client X) id (env w) = (None, e1) ->
  docker.doCreateExec _ (client X)
    (execOptions id true (strings.Split (Command step) ch_space)) e1 = (Ok x, e2) ->
  docker.doStartExec _ (client X) (docker.execID x) commandStream e2 = (out, e3) ->
  docker.doInspectExec _ (client X) (docker.execID x) e3 = ((inspect, None), e4) ->
  docker.ExitCode inspect <> 0 ->
  exists w', runCommand X step id w = (Returned None, w')
             /\ host w' = host w
             /\ last (logs w') = Some (exitCodeError step id (docker.ExitCode inspect)).
Proof.
  intros H1 H2 H3 H4 Hcode.
  unfold runCommand, startContainer, createExec, startExec, request, bind, logf,
    check, try, ret, returnErr, docker_. simpl.
  rewrite H1. simpl. rewrite H2. simpl.
  rewrite H3. simpl.
  destruct out as [o [er|]]; simpl; rewrite H4; simpl;
    (destruct (Z.eqb_spec (docker.ExitCode inspect) 0); [contradiction|]); simpl;
    eexists; (split; [reflexivity|]); (split; [reflexivity|]); simpl;
    apply last_snoc.
Qed.

(** C5: when the daemon starts the container, creates and starts the exec
    of the ad hoc command and answers the inspection, and the exit code
    it reports is not zero, BuildStep returns nil, no error, and the exit
    code is in the log on an error line. *)
Theorem BuildStep_nonzero_exit_is_no_error (b : Builder) (m : Manifest) (step : Step)
    (w w1 : World) (id : string) (e1 e2 e3 e4 : E) (x : docker.Exec)
    (out : string * option error) (inspect : docker.ExecInspect) :
  Command step <> EmptyString ->
  untilCommand U X b m step w = (Cont id, w1) ->
  docker.doStartContainer _ (client X) id (env w1) = (None, e1) ->
  docker.doCreateExec _ (client X)
    (execOptions id true (strings.Split (Command step) ch_space)) e1 = (Ok x, e2) ->
  docker.doStartExec _ (client X) (docker.execID x) commandStream e2 = (out, e3) ->
  docker.doInspectExec _ (client X) (docker.execID x) e3 = ((inspect, None), e4) ->
  docker.ExitCode inspect <> 0 ->
  fst (BuildStep U X b m step w) = None
  /\ exitCodeError step id (docker.ExitCode inspect) ∈ logs (snd (BuildStep U X b m step w)).
Proof.
  intros Hc Hpre H1 H2 H3 H4 Hcode.
  rewrite (BuildStep_split b m step w Hc), Hpre.
  destruct (runCommand_nonzero_exit step id w1 e1 e2 e3 e4 x out inspect H1 H2 H3 H4 Hcode)
    as (w' & Hrun & _ & Hlog).
  unfold fromCommand, run, bind. rewrite Hrun. simpl. split; [reflexivity|].
  apply last_Some_elem_of in Hlog. exact Hlog.
Qed.

End StepProperties.

Lemma BuildStep_nonzero_exit_is_no_error_witness :
  fst failingCommandRun = None
  /\ exitCodeError failingCommandStep "c1" 1 ∈ logs (snd failingCommandRun).
Proof.
  refine (BuildStep_nonzero_exit_is_no_error Sample.tables (Sample.world failingCommandScript)
            (Sample.builder soloManifest "abc") soloManifest failingCommandStep
            Sample.start _ "c1" 0%nat 0%nat 0%nat 0%nat {| docker.execID := "x1" |}
            (EmptyString, None) {| docker.ExitCode := 1 |} _ _ _ _ _ _ _).
  - discriminate.
  - vm_compute. reflexivity.
  - reflexivity.
  - reflexivity.
  - reflexivity.
  - reflexivity.
  - discriminate.
Defined.

(** ** Artifact extraction ([copyToHost]) *)

Lemma lor_land_absorb (a b : Z) : Z.lor (Z.land a b) b = b.
Proof.
  apply Z.bits_inj'. intros n _.
  rewrite Z.lor_spec, Z.land_spec.
  destruct (Z.testbit a n), (Z.testbit b n); reflexivity.
Qed.

(** whatever mode is asked for, [|0700] and [chmod] leave the owner's
    write and execute bits set *)
Lemma syscallMode_owner_bits (x : Z) :
  Z.land (os.syscallMode (Z.lor x 448)) ownerWX = ownerWX.
Proof.
  unfold os.syscallMode, ownerWX, os.ModePerm.
  rewrite Z.land_lor_distr_l.
  rewrite <- (Z.land_assoc (Z.lor x 448) 511 192).
  change (Z.land 511 192) with 192.
  rewrite (Z.land_lor_distr_l x 448 192).
  change (Z.land 448 192) with 192.
  rewrite lor_land_absorb.
  rewrite Z.lor_comm. apply lor_land_absorb.
Qed.

Lemma setFiles_same (h : Host) : os.setFiles h (files h) = h.
Proof. destruct h; reflexivity. Qed.

Lemma lastBody_snoc (es : list tar.Entry) (e : tar.Entry) (d : string) :
  lastBody (es ++ [e]) d = tar.Body e.
Proof. unfold lastBody. rewrite fold_left_app. reflexivity. Qed.

Section ExtractProperties.

Context {E : Type} (X : Outside E).

(** Copying regular entries over a file that is there: the file ends up
    with the bytes of the last entry and the mode it had. *)
Lemma extract_existing (a : Artifact) (p : string) (es : list tar.Entry) :
  Forall regular es ->
  forall (w : World (E:=E)) (f : File),
    files (host w) !! p = Some f ->
    exists w',
      extract a p es None w = (Cont tt, w')
      /\ host w' = os.setFiles (host w)
                     (<[p := {| data := lastBody es (data f); mode := mode f |}]>
                        (files (host w)))
      /\ env w' = env w /\ calls w' = calls w.
Proof.
  induction 1 as [|hdr rest [Hty Herr] _ IH]; intros w f Hf.
  - exists w. simpl. unfold ret. repeat split.
    destruct f as [d mo]. simpl. rewrite (insert_id _ _ _ Hf).
    symmetry. apply setFiles_same.
  - simpl. rewrite Hty, Ascii.eqb_refl.
    unfold bind, logf, sys. simpl.
    unfold os.Create, os.createWith. simpl. rewrite Hf. simpl.
    unfold os.write. simpl. rewrite lookup_insert_eq. simpl.
    rewrite Herr. simpl. rewrite insert_insert_eq.
    match goal with
    | |- context [extract a p rest None ?w1] =>
        destruct (IH w1 {| data := tar.Body hdr; mode := mode f |}) as (w' & Hrun & Hh & He & Hc)
    end.
    { simpl. apply lookup_insert_eq. }
    exists w'. rewrite Hrun. split; [reflexivity|].
    rewrite Hh, He, Hc. simpl. rewrite insert_insert_eq. repeat split.
Qed.

(** Copying at least one regular entry to a path [os.Create] can open. *)
Lemma extract_created (a : Artifact) (p : string) (es : list tar.Entry)
    (w : World (E:=E)) (h : Host) :
  es <> [] -> Forall regular es ->
  os.Create (host w) p = Ok h ->
  exists w',
    extract a p es None w = (Cont tt, w')
    /\ host w' = os.setFiles (host w)
                   (<[p := {| data := lastBody es EmptyString;
                              mode := createdMode (host w) p |}]> (files (host w)))
    /\ env w' = env w /\ calls w' = calls w.
Proof.
  intros Hne Hall Hcreate. destruct es as [|hdr rest]; [contradiction|].
  inversion Hall as [|? ? [Hty Herr] Hrest]; subst.
  simpl. rewrite Hty, Ascii.eqb_refl.
  unfold bind, logf, sys. simpl. rewrite Hcreate. simpl.
  assert (Hh : h = os.setFiles (host w)
                 (<[p := {| data := EmptyString; mode := createdMode (host w) p |}]>
                    (files (host w)))).
  { unfold os.Create, os.createWith, createdMode in *.
    destruct (files (host w) !! p) as [f|].
    - congruence.
    - destruct (os.isDir (host w) p); [discriminate|].
      destruct (os.isDir (host w) (os.Dir p)); simpl in Hcreate; congruence. }
  subst h. unfold os.write. simpl. rewrite lookup_insert_eq. simpl.
  rewrite Herr. simpl. rewrite insert_insert_eq.
  match goal with
  | |- context [extract a p rest None ?w1] =>
      destruct (extract_existing a p rest Hrest w1
                  {| data := tar.Body hdr; mode := createdMode (host w) p |})
        as (w' & Hrun & Hh & He & Hc)
  end.
  { simpl. apply lookup_insert_eq. }
  exists w'. rewrite Hrun. split; [reflexivity|].
  rewrite Hh, He, Hc. simpl. rewrite insert_insert_eq. repeat split.
Qed.

End ExtractProperties.

Lemma MkdirAll_ok (h h1 : Host) (p : string) :
  os.MkdirAll h p = Ok h1 ->
  h1 = os.setDirs h (dirs h ∪ list_to_set (p :: os.ancestors p))
  /\ p <> EmptyString
  /\ existsb (os.isFile h) (p :: os.ancestors p) = false.
Proof.
  unfold os.MkdirAll. intros H.
  destruct (String.eqb_spec p EmptyString) as [|Hp]; [discriminate|].
  destruct (existsb (os.isFile h) (p :: os.ancestors p)) eqn:Hex; [discriminate|].
  inversion H. auto.
Qed.

(** a path [os.Create] can open is none of the directories that
    [os.MkdirAll] has just made *)
Lemma Create_not_made (h h1 h2 : Host) (p q : string) :
  os.MkdirAll h p = Ok h1 ->
  os.Create h1 q = Ok h2 ->
  q ∉ p :: os.ancestors p.
Proof.
  intros Hmk Hcr Hin.
  destruct (MkdirAll_ok _ _ _ Hmk) as (-> & _ & Hex).
  unfold os.Create, os.createWith in Hcr. cbn [files os.setDirs] in Hcr.
  destruct (files h !! q) as [f|] eqn:Hf.
  - assert (existsb (os.isFile h) (p :: os.ancestors p) = true) as Ht; [|congruence].
    apply existsb_exists. exists q. split; [apply list_elem_of_In; exact Hin|].
    unfold os.isFile. rewrite Hf. apply bool_decide_eq_true. eauto.
  - assert (os.isDir (os.setDirs h (dirs h ∪ list_to_set (p :: os.ancestors p))) q = true)
      as Hd; [|rewrite Hd in Hcr; discriminate].
    unfold os.isDir. cbn [dirs os.setDirs]. apply orb_true_iff. right.
    apply bool_decide_eq_true. apply elem_of_union_r, elem_of_list_to_set. exact Hin.
Qed.

(** making the directories again, after a file was written beside them,
    changes nothing *)
Lemma MkdirAll_again (h h1 : Host) (p q : string) (f : File) :
  os.MkdirAll h p = Ok h1 ->
  q ∉ p :: os.ancestors p ->
  os.MkdirAll (os.setFiles h1 (<[q := f]> (files h1))) p
  = Ok (os.setFiles h1 (<[q := f]> (files h1))).
Proof.
  intros Hmk Hq.
  destruct (MkdirAll_ok _ _ _ Hmk) as (-> & Hp & Hex).
  unfold os.MkdirAll.
  destruct (String.eqb_spec p EmptyString) as [|_]; [contradiction|].
  match goal with
  | |- context [existsb ?g ?l] =>
      assert (existsb g l = false) as ->
  end.
  { apply not_true_is_false. intros Ht.
    apply existsb_exists in Ht as (x & Hx & Hfile).
    assert (existsb (os.isFile h) (p :: os.ancestors p) = true) as Ht; [|congruence].
    apply existsb_exists. exists x. split; [exact Hx|].
    unfold os.isFile in *. simpl in Hfile.
    rewrite lookup_insert_ne in Hfile; [exact Hfile|].
    intros ->. apply Hq, list_elem_of_In, Hx. }
  f_equal. unfold os.setDirs, os.setFiles. simpl. f_equal.
  apply set_eq. intros x. rewrite !elem_of_union. tauto.
Qed.

Lemma lastBody_nonempty (es : list tar.Entry) (d d' : string) :
  es <> [] -> lastBody es d = lastBody es d'.
Proof. destruct es; [contradiction|reflexivity]. Qed.

Section CopyProperties.

Context {E : Type} (X : Outside E).

(** [copyToHost] when the destination can be created *)
Lemma copyToHost_created (b : Builder) (a : Artifact) (container : string)
    (perms : gmap string Z) (w : World) (h1 h2 : Host) (out : tar.Archive) (e1 : E) :
  os.MkdirAll (host w) (destPath b a) = Ok h1 ->
  docker.doDownloadFromContainer _ (client X) container (Source a) (env w) = (Ok out, e1) ->
  tar.entries out <> [] -> Forall regular (tar.entries out) -> tar.trailer out = None ->
  os.Create h1 (destFile b a) = Ok h2 ->
  exists w',
    copyToHost X b a container perms w = (None, w')
    /\ host w' = os.setFiles h1
                   (<[destFile b a := {| data := lastBody (tar.entries out) EmptyString;
                                         mode := os.syscallMode (artifactMode a perms) |}]>
                      (files h1))
    /\ env w' = e1.
Proof.
  intros Hmk Hdl Hne Hreg Htr Hcr.
  unfold copyToHost, run, bind, sys, request, try, ret, docker_.
  rewrite Hmk. cbv beta iota. cbn [env setHost]. rewrite Hdl.
  cbv beta iota. rewrite Htr.
  match goal with
  | |- context [extract a (destFile b a) (tar.entries out) None ?w1] =>
      destruct (extract_created a (destFile b a) (tar.entries out) w1 h2 Hne Hreg Hcr)
        as (w2 & Hrun & Hh & He & Hc)
  end.
  rewrite Hrun. unfold logf. cbv beta iota. cbn [host].
  unfold os.Chmod. rewrite Hh. simpl. rewrite lookup_insert_eq. simpl.
  eexists. split; [reflexivity|]. simpl. rewrite insert_insert_eq. split; [reflexivity|].
  exact He.
Qed.

(** [copyToHost] when the destination is a file already *)
Lemma copyToHost_existing (b : Builder) (a : Artifact) (container : string)
    (perms : gmap string Z) (w : World) (h1 : Host) (out : tar.Archive) (e1 : E)
    (f : File) :
  os.MkdirAll (host w) (destPath b a) = Ok h1 ->
  docker.doDownloadFromContainer _ (client X) container (Source a) (env w) = (Ok out, e1) ->
  Forall regular (tar.entries out) -> tar.trailer out = None ->
  files h1 !! destFile b a = Some f ->
  exists w',
    copyToHost X b a container perms w = (None, w')
    /\ host w' = os.setFiles h1
                   (<[destFile b a := {| data := lastBody (tar.entries out) (data f);
                                         mode := os.syscallMode (artifactMode a perms) |}]>
                      (files h1))
    /\ env w' = e1.
Proof.
  intros Hmk Hdl Hreg Htr Hf.
  unfold copyToHost, run, bind, sys, request, try, ret, docker_.
  rewrite Hmk. cbv beta iota. cbn [env setHost]. rewrite Hdl.
  cbv beta iota. rewrite Htr.
  match goal with
  | |- context [extract a (destFile b a) (tar.entries out) None ?w1] =>
      destruct (extract_existing a (destFile b a) (tar.entries out) Hreg w1 f Hf)
        as (w2 & Hrun & Hh & He & Hc)
  end.
  rewrite Hrun. unfold logf. cbv beta iota. cbn [host].
  unfold os.Chmod. rewrite Hh. simpl. rewrite lookup_insert_eq. simpl.
  eexists. split; [reflexivity|]. simpl. rewrite insert_insert_eq. split; [reflexivity|].
  exact He.
Qed.

(** C6: when the download succeeds and the archive holds regular-file
    entries only, extraction writes the file at
    workdir/Dest/basename(Source), with the destination directories made
    on the way, and the mode of that file includes the owner's write and
    execute bits whatever permission was recorded for the artifact. *)
Theorem copyToHost_writes_artifact (b : Builder) (a : Artifact) (container : string)
    (perms : gmap string Z) (w : World) (h1 h2 : Host) (out : tar.Archive) (e1 : E) :
  os.MkdirAll (host w) (path.Join [Workdir (Conf b); Dest a]) = Ok h1 ->
  docker.doDownloadFromContainer _ (client X) container (Source a) (env w) = (Ok out, e1) ->
  tar.entries out <> [] -> Forall regular (tar.entries out) -> tar.trailer out = None ->
  os.Create h1 (path.Join [path.Join [Workdir (Conf b); Dest a]; filepath.Base (Source a)])
  = Ok h2 ->
  exists (w' : World) (f : File),
    copyToHost X b a container perms w = (None, w')
    /\ files (host w')
         !! path.Join [path.Join [Workdir (Conf b); Dest a]; filepath.Base (Source a)]
       = Some f
    /\ data f = lastBody (tar.entries out) EmptyString
    /\ Z.land (mode f) ownerWX = ownerWX
    /\ path.Join [Workdir (Conf b); Dest a] ∈ dirs (host w').
Proof.
  intros Hmk Hdl Hne Hreg Htr Hcr.
  destruct (copyToHost_created b a container perms w h1 h2 out e1 Hmk Hdl Hne Hreg Htr Hcr)
    as (w' & Hrun & Hh & _).
  eexists w', _. split; [exact Hrun|]. rewrite Hh.
  cbn [files dirs os.setFiles].
  split; [apply lookup_insert_eq|]. cbn [data mode]. split; [reflexivity|].
  split; [apply syscallMode_owner_bits|].
  destruct (MkdirAll_ok _ _ _ Hmk) as (Hh1 & _ & _). rewrite Hh1.
  cbn [dirs os.setDirs].
  apply elem_of_union_r, elem_of_list_to_set. left.
Qed.

(** C7: extracting the same artifact twice leaves one file at the
    destination: the second extraction succeeds, writes over the file
    the first one left, and adds no other path; with the same content and
    permission the host is as the first extraction left it. *)
Theorem copyToHost_twice_overwrites (b : Builder) (a : Artifact) (container : string)
    (perms1 perms2 : gmap string Z) (w : World) (h1 h2 : Host)
    (out1 out2 : tar.Archive) (e1 e2 : E) :
  os.MkdirAll (host w) (destPath b a) = Ok h1 ->
  os.Create h1 (destFile b a) = Ok h2 ->
  docker.doDownloadFromContainer _ (client X) container (Source a) (env w) = (Ok out1, e1) ->
  tar.entries out1 <> [] -> Forall regular (tar.entries out1) -> tar.trailer out1 = None ->
  docker.doDownloadFromContainer _ (client X) container (Source a) e1 = (Ok out2, e2) ->
  tar.entries out2 <> [] -> Forall regular (tar.entries out2) -> tar.trailer out2 = None ->
  exists w1 w2 : World,
    copyToHost X b a container perms1 w = (None, w1)
    /\ copyToHost X b a container perms2 w1 = (None, w2)
    /\ dom (files (host w2)) = dom (files (host w1))
    /\ dirs (host w2) = dirs (host w1)
    /\ files (host w2) !! destFile b a
       = Some {| data := lastBody (tar.entries out2) EmptyString;
                 mode := os.syscallMode (artifactMode a perms2) |}
    /\ (tar.entries out2 = tar.entries out1 ->
        artifactMode a perms2 = artifactMode a perms1 ->
        host w2 = host w1).
Proof.
  intros Hmk Hcr Hdl1 Hne1 Hreg1 Htr1 Hdl2 Hne2 Hreg2 Htr2.
  destruct (copyToHost_created b a container perms1 w h1 h2 out1 e1
              Hmk Hdl1 Hne1 Hreg1 Htr1 Hcr) as (w1 & Hrun1 & Hh1 & He1).
  pose proof (Create_not_made _ _ _ _ _ Hmk Hcr) as Hfresh.
  set (f1 := {| data := lastBody (tar.entries out1) EmptyString;
                mode := os.syscallMode (artifactMode a perms1) |}) in *.
  assert (Hmk2 : os.MkdirAll (host w1) (destPath b a) = Ok (host w1)).
  { rewrite Hh1. apply (MkdirAll_again _ _ _ _ _ Hmk Hfresh). }
  assert (Hf1 : files (host w1) !! destFile b a = Some f1).
  { rewrite Hh1. simpl. apply lookup_insert_eq. }
  rewrite <- He1 in Hdl2.
  destruct (copyToHost_existing b a container perms2 w1 (host w1) out2 e2 f1
              Hmk2 Hdl2 Hreg2 Htr2 Hf1) as (w2 & Hrun2 & Hh2 & He2).
  exists w1, w2. split; [exact Hrun1|]. split; [exact Hrun2|].
  rewrite Hh2. cbn [files dirs os.setFiles].
  rewrite (lastBody_nonempty _ (data f1) EmptyString Hne2).
  split.
  { rewrite dom_insert_L. apply elem_of_dom_2 in Hf1.
    apply set_eq. intros x. rewrite elem_of_union, elem_of_singleton.
    split; [intros [->|Hx]; assumption|auto]. }
  split; [reflexivity|].
  split; [apply lookup_insert_eq|].
  intros Hsame Hmode. rewrite Hsame, Hmode. fold f1.
  rewrite (insert_id _ _ _ Hf1). apply setFiles_same.
Qed.

End CopyProperties.

Lemma copyToHost_writes_artifact_witness :
  exists (w' : World) (f : File),
    copyToHost (Sample.world extractScript) extractBuilder appBin "c1" (recorded 0)
      Sample.start = (None, w')
    /\ files (host w') !! path.Join [path.Join ["/w"; "out"]; filepath.Base "/build/app.bin"]
       = Some f
    /\ data f = "ELF"
    /\ Z.land (mode f) ownerWX = ownerWX
    /\ path.Join ["/w"; "out"] ∈ dirs (host w').
Proof.
  refine (copyToHost_writes_artifact (Sample.world extractScript) extractBuilder appBin
            "c1" (recorded 0) Sample.start _ _ (Sample.oneFile "ELF") 0%nat _ _ _ _ _ _).
  - reflexivity.
  - reflexivity.
  - discriminate.
  - repeat constructor.
  - reflexivity.
  - vm_compute. reflexivity.
Defined.

Lemma copyToHost_twice_overwrites_witness :
  exists w1 w2 : World,
    copyToHost (Sample.world extractScript) extractBuilder appBin "c1" (recorded 644)
      Sample.start = (None, w1)
    /\ copyToHost (Sample.world extractScript) extractBuilder appBin "c1" (recorded 644)
         w1 = (None, w2)
    /\ dom (files (host w2)) = dom (files (host w1))
    /\ files (host w2) !! destFile extractBuilder appBin
       = Some {| data := "ELF"; mode := os.syscallMode (artifactMode appBin (recorded 644)) |}
    /\ host w2 = host w1.
Proof.
  destruct (copyToHost_twice_overwrites (Sample.world extractScript) extractBuilder appBin
              "c1" (recorded 644) (recorded 644) Sample.start
              (os.setDirs Sample.disk (dirs Sample.disk ∪ list_to_set ["/w/out"; "/w"; "/"]))
              (os.setFiles
                 (os.setDirs Sample.disk (dirs Sample.disk ∪ list_to_set ["/w/out"; "/w"; "/"]))
                 (<["/w/out/app.bin" := {| data := EmptyString; mode := 420 |}]>
                    (files Sample.disk)))
              (Sample.oneFile "ELF") (Sample.oneFile "ELF") 0%nat 0%nat)
    as (w1 & w2 & H1 & H2 & Hdom & _ & Hfile & Hsame).
  - reflexivity.
  - reflexivity.
  - reflexivity.
  - discriminate.
  - repeat constructor.
  - reflexivity.
  - reflexivity.
  - discriminate.
  - repeat constructor.
  - reflexivity.
  - exists w1, w2. repeat split; auto.
Defined.

Example copyToHost_sample :
  let r := copyToHost (Sample.world extractScript) extractBuilder appBin "c1" (recorded 644)
             Sample.start in
  fst r = None
  /\ map_to_list (files (host (snd r)))
     = [("/w/out/app.bin", {| data := "ELF"; mode := 452 |});
        ("/w/Dockerfile", {| data := "FROM base"; mode := 420 |})].
Proof. split; vm_compute; reflexivity. Qed.

(** ** Serialization ([dumpDockerfile]) *)

Lemma str_app_assoc (a b c : string) : (a +:+ b) +:+ c = a +:+ (b +:+ c).
Proof. induction a as [|x a IH]; [reflexivity|]. rewrite !str_app_cons, IH. reflexivity. Qed.

Lemma str_app_nil_r (a : string) : a +:+ EmptyString = a.
Proof. induction a as [|x a IH]; [reflexivity|]. rewrite str_app_cons, IH. reflexivity. Qed.

Lemma chain_unfold (n : Node) :
  chain n = match Next n with None => [] | Some m => m :: chain m end.
Proof. destruct n; reflexivity. Qed.

Lemma str_rev_onto_twice (s a b : string) :
  str_rev_onto (str_rev_onto s a) b = str_rev_onto a (s +:+ b).
Proof.
  revert a. induction s as [|c t IH]; intros a; [reflexivity|].
  simpl. rewrite IH. reflexivity.
Qed.

Lemma str_rev_involutive (s : string) : str_rev (str_rev s) = s.
Proof. unfold str_rev. rewrite str_rev_onto_twice. simpl. apply str_app_nil_r. Qed.

Lemma dropSpaces_plain (s : string) :
  startsPlain s = true -> strings.dropSpaces s = s /\ strings.startsNonASCII s = false.
Proof.
  destruct s as [|c t]; [auto|]. simpl. intros H.
  apply andb_true_iff in H as [Hs Ha]. apply negb_true_iff in Hs. rewrite Hs.
  split; [reflexivity|]. unfold RuneSelf in *. lia.
Qed.

(** [TrimSpace] leaves alone what has nothing to trim *)
Lemma TrimSpace_plain (U : UnicodeTables) (s : string) :
  plainEnds s = true -> strings.TrimSpace U s = s.
Proof.
  intros H. apply andb_true_iff in H as [H1 H2].
  destruct (dropSpaces_plain _ H1) as [E1 N1].
  destruct (dropSpaces_plain _ H2) as [E2 N2].
  unfold strings.TrimSpace. rewrite E1, N1, E2, N2. apply str_rev_involutive.
Qed.

Section DumpProperties.

Context (U : UnicodeTables).

Lemma dumpDockerfile_unfold (n : Node) :
  dumpDockerfile U n
  = strings.TrimSpace U
      (((if (0 <? length (Flags n))%nat then Value n +:+ Sprintf_q U (Flags n) else Value n)
        +:+ dumpChildren (dumpDockerfile U) (Children n))
       +:+ match Next n with
           | None => EmptyString
           | Some m => dumpNext (dumpDockerfile U) m
           end).
Proof. destruct n; reflexivity. Qed.

Lemma dumpNext_unfold (dump : Node -> string) (n : Node) :
  dumpNext dump n
  = (if (0 <? length (Children n))%nat then " " +:+ dump n else " " +:+ Value n)
    +:+ match Next n with
        | None => EmptyString
        | Some m => dumpNext dump m
        end.
Proof. destruct n; reflexivity. Qed.

Lemma dumpChildren_map (dump : Node -> string) (l : list Node) :
  dumpChildren dump l
  = str_concat (map (fun c => (if String.eqb (Value c) "cmd" then Original c +:+ newline
                               else dump c +:+ newline)) l).
Proof. induction l as [|c l IH]; [reflexivity|]. simpl. rewrite <- IH. reflexivity. Qed.

(** a chain of leaves is written token by token, a space before each *)
Lemma dumpNext_leaves (dump : Node -> string) (l : list Node) :
  forall n : Node,
    chain n = l -> leaf n -> Forall leaf l ->
    dumpNext dump n = str_concat (map (fun t => " " +:+ Value t) (n :: l)).
Proof.
  induction l as [|m l IH]; intros n Hch Hn Hl.
  - rewrite dumpNext_unfold, Hn. rewrite chain_unfold in Hch.
    destruct (Next n); [discriminate|reflexivity].
  - rewrite dumpNext_unfold, Hn. rewrite chain_unfold in Hch.
    destruct (Next n) as [m'|]; [|discriminate].
    inversion Hch; subst. inversion Hl as [|? ? Hlm Hll]; subst.
    rewrite (IH _ eq_refl Hlm Hll). reflexivity.
Qed.

(** The root of a parsed file: its lines one after the other, a line end
    after each, the original text for CMD. *)
Lemma dumpDockerfile_file (root : Node) :
  Flags root = [] -> Next root = None ->
  dumpDockerfile U root
  = strings.TrimSpace U (Value root +:+ str_concat (map (dumpedLine U) (Children root))).
Proof.
  intros Hf Hn. rewrite dumpDockerfile_unfold, Hf, Hn. simpl.
  rewrite str_app_nil_r, dumpChildren_map. f_equal. f_equal. f_equal.
  apply map_ext. intros c. unfold dumpedLine. destruct (Value c =? "cmd")%string; reflexivity.
Qed.

(** C8: an instruction other than CMD is written as its name, then its
    flags, when it has any, as one bracketed list of quoted strings (Go's
    %q of the slice, not their raw text), then its argument tokens as
    they are, a space before each, the whole trimmed of white space at
    both ends; so an instruction without flags comes out word for word. *)
Theorem dumpDockerfile_instruction (n : Node) :
  leaf n -> Forall leaf (chain n) ->
  dumpDockerfile U n
  = strings.TrimSpace U
      (Value n
       +:+ (if (0 <? length (Flags n))%nat then Sprintf_q U (Flags n) else EmptyString)
       +:+ str_concat (map (fun t => " " +:+ Value t) (chain n)))
  /\ (Flags n = [] -> plainEnds (verbatimLine n) = true ->
      dumpDockerfile U n = verbatimLine n).
Proof.
  intros Hn Hl.
  assert (Hnext : match Next n with
                  | None => EmptyString
                  | Some m => dumpNext (dumpDockerfile U) m
                  end = str_concat (map (fun t => " " +:+ Value t) (chain n))).
  { rewrite (chain_unfold n) in Hl |- *. destruct (Next n) as [m|]; [|reflexivity].
    inversion Hl; subst. apply dumpNext_leaves; auto. }
  split.
  - rewrite dumpDockerfile_unfold, Hn, Hnext. simpl.
    destruct (0 <? length (Flags n))%nat;
      rewrite ?str_app_nil_r, ?str_app_assoc; reflexivity.
  - intros Hf Hplain. unfold verbatimLine in *. rewrite Hf in *.
    cbn [map str_concat] in *. rewrite str_app_nil_l in *.
    rewrite dumpDockerfile_unfold, Hn, Hnext, Hf.
    cbn [length Nat.ltb Nat.leb dumpChildren]. rewrite str_app_nil_r.
    apply TrimSpace_plain, Hplain.
Qed.

End DumpProperties.

(** The flag of [COPY --from=b /a /b] comes out bracketed and quoted. *)
Lemma dumpDockerfile_quotes_flags :
  dumpDockerfile Sample.tables copyLine
  = "copy [" +:+ dq +:+ "--from=b" +:+ dq +:+ "] /a /b"
  /\ verbatimLine copyLine = "copy --from=b /a /b"
  /\ dumpDockerfile Sample.tables copyLine <> verbatimLine copyLine
  /\ dumpDockerfile Sample.tables copyLine <> Original copyLine.
Proof.
  repeat split; try (vm_compute; reflexivity); vm_compute; discriminate.
Qed.

Lemma dumpDockerfile_instruction_witness :
  dumpDockerfile Sample.tables runLine = verbatimLine runLine.
Proof.
  destruct (dumpDockerfile_instruction Sample.tables runLine) as [_ Hplain].
  - reflexivity.
  - repeat constructor.
  - apply Hplain; reflexivity.
Defined.

Example dumpDockerfile_sample :
  dumpDockerfile Sample.tables runLine = "run make install"
  /\ dumpDockerfile Sample.tables
       (Sample.file [Sample.line "from" [] ["ubuntu"] "FROM ubuntu"; runLine;
                     Sample.line "cmd" [] ["echo"; "hi"] "CMD echo   hi"])
     = "from ubuntu" +:+ newline +:+ "run make install" +:+ newline +:+ "CMD echo   hi".
Proof. split; vm_compute; reflexivity. Qed.

(** ** The recorded permission ([strconv.Atoi] on the output of [stat]) *)

Lemma digitOf_range (c : ascii) (d : Z) : strconv.digitOf c = Some d -> 0 <= d <= 9.
Proof.
  unfold strconv.digitOf. intros H.
  destruct ((48 <=? byte_of c) && (byte_of c <=? 57)) eqn:Hr; [|discriminate].
  apply andb_true_iff in Hr as [H1 H2]. inversion H. lia.
Qed.

Lemma atoi10_from_ge (s : string) :
  forall n v, 0 <= n -> atoi10_from s n = Some v -> n <= v.
Proof.
  induction s as [|c t IH]; simpl; intros n v Hn H.
  - inversion H. lia.
  - destruct (strconv.digitOf c) as [d|] eqn:Hd; [|discriminate].
    apply digitOf_range in Hd. apply IH in H; lia.
Qed.

(** on digits whose value an unsigned 64-bit integer holds, the loop of
    [ParseUint] computes the decimal value *)
Lemma parseDigits_decimal (s : string) :
  forall n v, 0 <= n -> atoi10_from s n = Some v -> v <= strconv.maxUint64 ->
              strconv.parseDigits s n = (v, None).
Proof.
  induction s as [|c t IH]; simpl; intros n v Hn H Hv.
  - inversion H. reflexivity.
  - destruct (strconv.digitOf c) as [d|] eqn:Hd; [|discriminate].
    pose proof (digitOf_range _ _ Hd) as Hr.
    pose proof (atoi10_from_ge t (n * 10 + d) v ltac:(lia) H) as Hge.
    unfold strconv.maxUint64 in *.
    destruct (Z.leb_spec (((2 ^ 64 - 1) / 10) + 1) n) as [Hc|_].
    { change ((2 ^ 64 - 1) / 10 + 1) with 1844674407370955162 in Hc. lia. }
    destruct (Z.ltb_spec (2 ^ 64 - 1) (n * 10 + d)) as [Hc|_]; [lia|].
    apply IH; [lia|exact H|exact Hv].
Qed.

(** [Atoi] on a string of digits that an [int] holds *)
Lemma Atoi_decimal (s : string) (v : Z) :
  atoi10 s = Some v -> v < 2 ^ 63 -> strconv.Atoi s = (v, None).
Proof.
  intros H Hv. destruct s as [|c t]; [discriminate|].
  unfold atoi10 in H. unfold strconv.Atoi, strconv.ParseInt.
  assert (Hd : exists d, strconv.digitOf c = Some d).
  { simpl in H. destruct (strconv.digitOf c); [eauto|discriminate]. }
  destruct Hd as [d Hd].
  assert (Hm : Ascii.eqb c "-"%char = false).
  { destruct (Ascii.eqb_spec c "-"%char) as [->|]; [discriminate Hd|reflexivity]. }
  assert (Hp : Ascii.eqb c "+"%char = false).
  { destruct (Ascii.eqb_spec c "+"%char) as [->|]; [discriminate Hd|reflexivity]. }
  rewrite Hm, Hp. cbn [orb negb andb].
  unfold strconv.ParseUint.
  pose proof (atoi10_from_ge _ 0 v ltac:(lia) H) as Hge.
  rewrite (parseDigits_decimal _ 0 v ltac:(lia) H);
    [|unfold strconv.maxUint64; lia].
  destruct (Z.leb_spec (2 ^ 63) v); [lia|reflexivity].
Qed.

(** a syntax error comes with the value 0 *)
Lemma Atoi_syntax_zero (s : string) :
  snd (strconv.Atoi s) = Some strconv.ErrSyntax -> fst (strconv.Atoi s) = 0.
Proof.
  unfold strconv.Atoi, strconv.ParseInt.
  destruct s as [|c t]; [reflexivity|].
  destruct (strconv.ParseUint _) as [un [[|]|]]; [reflexivity| |].
  - destruct (negb _ && _); [discriminate|]. destruct (_ && _); discriminate.
  - destruct (negb _ && _); [discriminate|]. destruct (_ && _); discriminate.
Qed.

Lemma artifactMode_recorded (a : Artifact) (pm : gmap string Z) (v : Z) :
  artifactMode a (<[Source a := v]> pm) = Z.lor (v mod 2 ^ 32) 448.
Proof. unfold artifactMode, os.FileMode. rewrite lookup_insert_eq. reflexivity. Qed.

Section StatProperties.

Context {E : Type} (X : Outside E).

(** the loop records, for one artifact, what [Atoi] returns, whether
    [Atoi] reports an error or not *)
Lemma statPerms_one (container : string) (art : Artifact) (pm : gmap string Z)
    (w : World) (x : docker.Exec) (out : string) (err : option error) (e1 e2 : E) :
  docker.doCreateExec _ (client X) (statCommand container art) (env w) = (Ok x, e1) ->
  docker.doStartExec _ (client X) (docker.execID x) statStream e1 = ((out, err), e2) ->
  exists w',
    statPerms X container [art] pm w
    = (Cont (<[Source art := fst (strconv.Atoi (permsString out))]> pm), w').
Proof.
  intros H1 H2.
  unfold statPerms, createExec, startExec, request, bind, try, ret, logf, docker_.
  rewrite H1. cbv beta iota. cbn [env]. rewrite H2. cbv beta iota. cbn [fst snd].
  destruct (strconv.Atoi (permsString out)) as [perms perr]. cbn [fst].
  destruct err, perr; cbv beta iota; eexists; reflexivity.
Qed.

(** C10: the output of stat, its quotes and line ends removed, is parsed
    by strconv.Atoi in base 10 and the value is used as it is for the
    mode bits: for digits of value v below 2^63 the mode handed to chmod
    is FileMode(v) | 0700 (for 644 that is 01204 | 0700, not 0644 | 0700);
    when the parse fails on the syntax the recorded value is 0 and the
    mode is exactly 0700. *)
Theorem stat_mode_is_decimal (container : string) (art : Artifact) (pm : gmap string Z)
    (w : World) (x : docker.Exec) (out : string) (err : option error) (e1 e2 : E) :
  docker.doCreateExec _ (client X) (statCommand container art) (env w) = (Ok x, e1) ->
  docker.doStartExec _ (client X) (docker.execID x) statStream e1 = ((out, err), e2) ->
  exists (pm' : gmap string Z) (w' : World),
    statPerms X container [art] pm w = (Cont pm', w')
    /\ (forall v, atoi10 (permsString out) = Some v -> v < 2 ^ 63 ->
          pm' !! Source art = Some v
          /\ artifactMode art pm' = Z.lor (os.FileMode v) 448)
    /\ (snd (strconv.Atoi (permsString out)) = Some strconv.ErrSyntax ->
          pm' !! Source art = Some 0
          /\ artifactMode art pm' = 448).
Proof.
  intros H1 H2.
  destruct (statPerms_one container art pm w x out err e1 e2 H1 H2) as [w' Hrun].
  eexists _, w'. split; [exact Hrun|]. split.
  - intros v Hv Hlt. rewrite (Atoi_decimal _ _ Hv Hlt). cbn [fst].
    split; [apply lookup_insert_eq|apply artifactMode_recorded].
  - intros Hs. rewrite (Atoi_syntax_zero _ Hs).
    split; [apply lookup_insert_eq|]. rewrite artifactMode_recorded. reflexivity.
Qed.

End StatProperties.

(** When stat prints 2^63 the parse fails on the range, the recorded
    value is the largest int, and the mode handed to chmod has all of its
    32 bits set. *)
Lemma stat_mode_range_error :
  let s := permsString (Sample.statOut hugeStatScript) in
  let r := statPerms (Sample.world hugeStatScript) "c1" [appBin] ∅ Sample.start in
  snd (strconv.Atoi s) = Some strconv.ErrRange
  /\ fst r = Cont (recorded 9223372036854775807)
  /\ artifactMode appBin (recorded 9223372036854775807) = 4294967295
  /\ artifactMode appBin (recorded 9223372036854775807) <> 448.
Proof.
  repeat split; try (vm_compute; reflexivity). vm_compute. discriminate.
Qed.

Lemma stat_mode_is_decimal_witness :
  exists (pm' : gmap string Z) (w' : World),
    statPerms (Sample.world extractScript) "c1" [appBin] ∅ Sample.start = (Cont pm', w')
    /\ pm' !! Source appBin = Some 644
    /\ artifactMode appBin pm' = 964.
Proof.
  destruct (stat_mode_is_decimal (Sample.world extractScript) "c1" appBin ∅ Sample.start
              {| docker.execID := "x1" |} (Sample.statOut extractScript) None 0%nat 0%nat)
    as (pm' & w' & Hrun & Hdec & _).
  - reflexivity.
  - reflexivity.
  - exists pm', w'. split; [exact Hrun|].
    apply (Hdec 644); [vm_compute; reflexivity|reflexivity].
Defined.

Example stat_mode_samples :
  atoi10 (permsString (Sample.statOut extractScript)) = Some 644
  /\ artifactMode appBin (recorded 644) = 964        (* 01204 | 0700 = 01704 *)
  /\ artifactMode appBin (recorded 644) <> 484       (* 0644 | 0700 = 0744 *)
  /\ strconv.Atoi (permsString (Sample.statOut noStatScript)) = (0, Some strconv.ErrSyntax)
  /\ artifactMode appBin (recorded 0) = 448.
Proof.
  repeat split; try (vm_compute; reflexivity). vm_compute. discriminate.
Qed.

(** ** Where [BuildStep] can return nil

    Every early [return] in [BuildStep] carries an error, but for the one
    taken on a non-zero exit code of the ad hoc command.  A step that
    returns nil without that line in its log has run to its end: its
    container, when it made one, was removed last, and the generated
    build file is gone. *)

Create HintDb loud.

(** bring the worlds of a goal back to one record each *)
Ltac world := cbv beta iota; cbn [host env calls logs setHost fst snd].

Section Loud.

Context (U : UnicodeTables) {E : Type} (X : Outside E).

Lemma loud_ret {A} (a : A) : failsLoudly (E:=E) (ret a).
Proof. intros w e w' H. discriminate. Qed.

Lemma loud_bind {A B} (m : M A) (k : A -> M B) :
  failsLoudly (E:=E) m -> (forall a, failsLoudly (k a)) -> failsLoudly (bind m k).
Proof.
  intros Hm Hk w e w' H. unfold bind in H.
  destruct (m w) as [[a|e1] w1] eqn:Hmw.
  - exact (Hk a _ _ _ H).
  - inversion H; subst. exact (Hm _ _ _ Hmw).
Qed.

Lemma loud_check (err : option error) : failsLoudly (E:=E) (check err).
Proof. intros w e w' H. destruct err; inversion H; eauto. Qed.

Lemma loud_try {A} (r : Res A) : failsLoudly (E:=E) (try r).
Proof. intros w e w' H. destruct r; inversion H; eauto. Qed.

Lemma loud_sys (f : Host -> Res Host) : failsLoudly (E:=E) (sys f).
Proof. intros w e w' H. unfold sys in H. destruct (f (host w)); inversion H; eauto. Qed.

Lemma loud_request {A} (c : docker.Call) (f : E -> A * E) : failsLoudly (request c f).
Proof. intros w e w' H. unfold request in H. destruct (f (env w)). discriminate. Qed.

Lemma loud_outside {A} (f : E -> A * E) : failsLoudly (outside f).
Proof. intros w e w' H. unfold outside in H. destruct (f (env w)). discriminate. Qed.

Lemma loud_logf (l : Level) (fmt : string) (a : list LogArg) :
  failsLoudly (E:=E) (logf l fmt a).
Proof. intros w e w' H. discriminate. Qed.

Lemma loud_getHost : failsLoudly (E:=E) getHost.
Proof. intros w e w' H. discriminate. Qed.

Lemma loud_call (f : World -> option error * World) : failsLoudly (E:=E) (call f).
Proof. intros w e w' H. unfold call in H. destruct (f w). discriminate. Qed.

Hint Resolve loud_ret loud_check loud_try loud_sys loud_request loud_outside
  loud_logf loud_getHost loud_call : loud.

Ltac loud :=
  repeat match goal with
         | |- failsLoudly (bind _ _) => apply loud_bind; [|intros]
         | |- failsLoudly (match ?x with _ => _ end) => destruct x
         | |- failsLoudly (let (_, _) := ?p in _) => destruct p
         | |- forall _, _ => intros
         end;
  eauto with loud.

Lemma loud_startContainer (id : string) : failsLoudly (startContainer X id).
Proof. unfold startContainer. loud. Qed.

Lemma loud_stopContainer (id : string) : failsLoudly (stopContainer X id).
Proof. unfold stopContainer. loud. Qed.

Lemma loud_createExec (o : docker.CreateExecOptions) : failsLoudly (createExec X o).
Proof. unfold createExec. loud. Qed.

Lemma loud_startExec (id : string) (o : docker.StartExecOptions) :
  failsLoudly (startExec X id o).
Proof. unfold startExec. loud. Qed.

Hint Resolve loud_startContainer loud_stopContainer loud_createExec loud_startExec : loud.

Lemma loud_createContainer (b : Builder) (step : Step) :
  failsLoudly (createContainer U X b step).
Proof. unfold createContainer. loud. Qed.

Lemma loud_runCleanup (id : string) (cmds : list string) : failsLoudly (runCleanup X id cmds).
Proof. induction cmds as [|c l IH]; simpl; loud. Qed.

Hint Resolve loud_createContainer loud_runCleanup : loud.

Lemma loud_cleanupAndSquash (b : Builder) (step : Step) (id : string) :
  failsLoudly (cleanupAndSquash U X b step id).
Proof. unfold cleanupAndSquash. loud. Qed.

Lemma loud_statPerms (id : string) (arts : list Artifact) :
  forall pm, failsLoudly (statPerms X id arts pm).
Proof. induction arts as [|a l IH]; intros pm; simpl; loud. Qed.

Lemma loud_copyAll (b : Builder) (id : string) (arts : list Artifact) (pm : gmap string Z) :
  failsLoudly (copyAll X b id arts pm).
Proof. induction arts as [|a l IH]; simpl; loud. Qed.

Hint Resolve loud_cleanupAndSquash loud_statPerms loud_copyAll : loud.

Lemma loud_fetchArtifacts (b : Builder) (step : Step) (id : string) :
  failsLoudly (fetchArtifacts X b step id).
Proof. unfold fetchArtifacts. loud. Qed.

Lemma loud_buildImage (b : Builder) (m : Manifest) (step : Step) :
  failsLoudly (buildImage U X b m step).
Proof. unfold buildImage. loud. Qed.

Lemma loud_removeContainer (id : string) : failsLoudly (removeContainer X id).
Proof. unfold removeContainer. loud. Qed.

Hint Resolve loud_fetchArtifacts loud_buildImage loud_removeContainer : loud.

(** the ad hoc command is the exception: it returns nil early, and only
    after the error line on the exit code *)
Lemma runCommand_returns (step : Step) (id : string) (w w' : World) (e : option error) :
  runCommand X step id w = (Returned e, w') ->
  is_Some e \/ exists code, last (logs w') = Some (exitCodeError step id code).
Proof.
  unfold runCommand, startContainer, createExec, startExec, stopContainer, request, bind,
    logf, check, try, ret, returnErr, docker_.
  world.
  destruct (docker.doStartContainer _ _ _ _) as [[er|] e1]; world;
    [intros H; inversion H; eauto|].
  destruct (docker.doCreateExec _ _ _ _) as [[x|er] e2]; world;
    [|intros H; inversion H; eauto].
  destruct (docker.doStartExec _ _ _ _ _) as [[o [er|]] e3]; world;
    (destruct (docker.doInspectExec _ _ _ _) as [[inspect [er2|]] e4]; world;
     [intros H; inversion H; eauto|]);
    (destruct (negb (docker.ExitCode inspect =? 0)); world;
     [intros H; inversion H; subst; right; exists (docker.ExitCode inspect);
      cbn [logs]; apply last_snoc
     |destruct (docker.doStopContainer _ _ _ _ _) as [[er3|] e5]; world;
      intros H; inversion H; eauto]).
Qed.

Lemma removeContainer_done (id : string) (w w' : World) :
  removeContainer X id w = (Cont tt, w') ->
  last (calls w') = Some (docker.RemoveContainer (removeOptions id)).
Proof.
  unfold removeContainer, request, bind, logf, check, ret, returnErr, docker_.
  world.
  destruct (docker.doRemoveContainer _ _ _ _) as [[er|] e1]; world;
    intros H; inversion H; subst. cbn [calls]. apply last_snoc.
Qed.

(** the container block: it ends after the removal of the container, or
    leaves early with an error, or leaves early with nil after the error
    line on the exit code *)
Lemma withContainer_outcomes (b : Builder) (step : Step) (w w' : World) (o : Outcome unit) :
  withContainer U X b step w = (o, w') ->
  match o with
  | Cont _ =>
      needsContainer step = true ->
      exists id, last (calls w') = Some (docker.RemoveContainer (removeOptions id))
  | Returned e =>
      is_Some e \/ exists id code, last (logs w') = Some (exitCodeError step id code)
  end.
Proof.
  unfold withContainer. destruct (needsContainer step).
  2:{ intros H. inversion H; subst. discriminate. }
  unfold bind at 1. destruct (logf _ _ _ w) as [[[]|e0] w0] eqn:H0;
    [|discriminate H0].
  unfold bind at 1. destruct (createContainer U X b step w0) as [[c|e1] w1] eqn:H1.
  2:{ intros H. inversion H; subst. left. exact (loud_createContainer _ _ _ _ _ H1). }
  unfold bind at 1.
  match goal with
  | |- context [match ?t w1 with _ => _ end] => destruct (t w1) as [[[]|e2] w2] eqn:H2
  end.
  2:{ intros H. inversion H; subst. left. revert H2.
      destruct (negb (NoSquash (Conf b)) && (0 <? length (Commands (Cleanup step)))%nat);
        [apply loud_cleanupAndSquash|apply loud_ret]. }
  unfold bind at 1.
  match goal with
  | |- context [match ?t w2 with _ => _ end] => destruct (t w2) as [[[]|e3] w3] eqn:H3
  end.
  2:{ intros H. inversion H; subst. left. revert H3.
      destruct (0 <? length (Artifacts step))%nat;
        [apply loud_fetchArtifacts|apply loud_ret]. }
  unfold bind at 1.
  match goal with
  | |- context [match ?t w3 with _ => _ end] => destruct (t w3) as [[[]|e4] w4] eqn:H4
  end.
  2:{ intros H. inversion H; subst. revert H4.
      destruct (negb (String.eqb (Command step) EmptyString)).
      - intros H4. destruct (runCommand_returns _ _ _ _ _ H4) as [?|[code ?]]; eauto.
      - intros H4. left. exact (loud_ret _ _ _ _ H4). }
  intros H. destruct o as [[]|e5].
  - intros _. exists (docker.ID c). exact (removeContainer_done _ _ _ H).
  - left. exact (loud_removeContainer _ _ _ _ H).
Qed.

(** X19: A step that returns nil and has not logged a non-zero exit code has
    removed its container, when it made one, as its last request, and
    has deleted the generated build file. *)
Lemma BuildStep_clean_success (b : Builder) (m : Manifest) (step : Step) (w w' : World) :
  BuildStep U X b m step w = (None, w') ->
  (forall id code, last (logs w') <> Some (exitCodeError step id code)) ->
  files (host w') !! uniqueDockerfile b step = None
  /\ (needsContainer step = true ->
      exists id, last (calls w') = Some (docker.RemoveContainer (removeOptions id))).
Proof.
  unfold BuildStep, run. intros H Hlog.
  unfold bind at 1 in H.
  destruct (buildImage U X b m step w) as [[[]|e0] w0] eqn:H0.
  2:{ inversion H; subst. destruct (loud_buildImage _ _ _ _ _ _ H0). discriminate. }
  unfold bind at 1 in H.
  destruct (withContainer U X b step w0) as [[[]|e1] w1] eqn:H1.
  2:{ inversion H; subst.
      destruct (withContainer_outcomes _ _ _ _ _ H1) as [[? ?]|(id & code & Hl)];
        [discriminate|]. destruct (Hlog _ _ Hl). }
  pose proof (withContainer_outcomes _ _ _ _ _ H1) as Hrm. cbv beta iota in Hrm.
  unfold sys in H. destruct (os.Remove (host w1) (uniqueDockerfile b step)) as [h|er] eqn:Hr;
    inversion H; subst. split.
  - unfold os.Remove in Hr. cbn [host setHost].
    destruct (files (host w1) !! uniqueDockerfile b step) eqn:Hf.
    + inversion Hr; subst. cbn [files os.setFiles]. apply lookup_delete_eq.
    + destruct (bool_decide _); [|discriminate].
      destruct (bool_decide _); inversion Hr; subst. exact Hf.
  - exact Hrm.
Qed.

End Loud.

(** * Further properties of the builder *)

(** ** [replaceFromField]: what it writes, and what it leaves alone *)

Lemma WriteFile_ok (h h' : Host) (p d : string) (perm : Z) :
  ioutil.WriteFile h p d perm = Ok h' ->
  h' = os.setFiles h (<[p := {| data := d; mode := modeAfterCreate perm h p |}]> (files h)).
Proof.
  unfold ioutil.WriteFile, os.createWith, os.write, modeAfterCreate.
  destruct (files h !! p) as [f|] eqn:Hf.
  - cbn [files os.setFiles]. rewrite lookup_insert_eq. intros H. inversion H.
    cbn [files os.setFiles mode]. rewrite insert_insert_eq. reflexivity.
  - destruct (os.isDir h p); [discriminate|].
    destruct (negb (os.isDir h (os.Dir p))); [discriminate|].
    cbn [files os.setFiles]. rewrite lookup_insert_eq. intros H. inversion H.
    cbn [files os.setFiles mode]. rewrite insert_insert_eq. reflexivity.
Qed.

Section RewriteWrites.

Context (U : UnicodeTables) {E : Type} (X : Outside E).

(** X1: Rewriting changes the text of the first token of FROM instructions
    and nothing else: the instructions, their order, their flags, their
    original text and their other tokens are kept. *)
Theorem rewriteChildren_keeps_shape (b : Builder) (m : Manifest) (children : list Node) :
  forall r, rewriteChildren U b m children = Ok r -> Forall2 sameButImage children r.
Proof.
  induction children as [|c l IH]; simpl; intros r H.
  - inversion H. constructor.
  - destruct (String.eqb_spec (Value c) "from") as [Hv|Hv].
    + destruct (Next c) as [nx|] eqn:Hnx; [|discriminate].
      unfold FindStepByName in H.
      destruct (rewriteChildren U b m l) as [l'|]; [|discriminate].
      specialize (IH l' eq_refl).
      destruct (find _ _) as [st|]; inversion H; subst; constructor; auto.
      * unfold sameButImage, sameButValue, setNext, setValue. cbn [Value Next Children Original Flags].
        rewrite Hnx. repeat split; auto. intros Hne. contradiction.
      * unfold sameButImage, sameButValue. rewrite Hnx. repeat split; auto.
    + destruct (rewriteChildren U b m l) as [l'|]; [|discriminate].
      inversion H; subst. constructor; [|apply IH; reflexivity].
      unfold sameButImage, sameButValue.
      destruct (Next c); repeat split; auto.
Qed.

(** what the rewrite does to the world *)
Lemma replaceFromField_effect (b : Builder) (m : Manifest) (step : Step) (w : World) :
  let r := replaceFromField U X b m step w in
  calls (snd r) = calls w /\ env (snd r) = env w
  /\ match fst r with
     | Some _ => host (snd r) = host w
     | None =>
         exists rwc node children,
           os.Open (host w) (path.Join [Workdir (Conf b); Dockerfile step]) = Ok rwc
           /\ Parse X rwc = Ok node
           /\ rewriteChildren U b m (Children node) = Ok children
           /\ host (snd r)
              = os.setFiles (host w)
                  (<[uniqueDockerfile b step :=
                       {| data := dumpDockerfile U (setChildren node children);
                          mode := modeAfterCreate 420 (host w) (uniqueDockerfile b step) |}]>
                     (files (host w)))
     end.
Proof.
  unfold replaceFromField, run, bind, logf, getHost, try, sys, ret, returnErr. world.
  destruct (os.Open _ _) as [rwc|e] eqn:Hopen; world; [|auto].
  destruct (Parse X rwc) as [node|e] eqn:Hparse; world; [|auto].
  destruct (rewriteChildren U b m (Children node)) as [children|e] eqn:Hrw; world; [|auto].
  destruct (ioutil.WriteFile _ _ _ _) as [h'|e] eqn:Hwrite; world; [|auto].
  repeat split. exists rwc, node, children. repeat split; auto.
  apply WriteFile_ok, Hwrite.
Qed.


(** the outcome of the rewrite depends on the host alone *)
Lemma replaceFromField_same_host (b : Builder) (m : Manifest) (step : Step) (w1 w2 : World) :
  host w1 = host w2 ->
  fst (replaceFromField U X b m step w1) = fst (replaceFromField U X b m step w2)
  /\ host (snd (replaceFromField U X b m step w1))
     = host (snd (replaceFromField U X b m step w2)).
Proof.
  intros Hh.
  unfold replaceFromField, run, bind, logf, getHost, try, sys, ret, returnErr. world.
  rewrite Hh.
  destruct (os.Open _ _) as [rwc|e]; world; [|auto].
  destruct (Parse X rwc) as [node|e]; world; [|auto].
  destruct (rewriteChildren U b m (Children node)) as [children|e]; world; [|auto].
  destruct (ioutil.WriteFile _ _ _ _) as [h'|e]; world; auto.
Qed.

(** the head of [BuildStep], in terms of the rewrite and of the answer of
    the daemon *)
Lemma buildImage_result (b : Builder) (m : Manifest) (step : Step) (w w' : World)
    (o : Outcome unit) :
  buildImage U X b m step w = (o, w') ->
  match fst (replaceFromField U X b m step w) with
  | Some e =>
      o = Returned (Some e) /\ host w' = host w /\ calls w' = calls w /\ env w' = env w
  | None =>
      host w' = host (snd (replaceFromField U X b m step w))
      /\ calls w' = calls w ++ [docker.BuildImage (buildOptions U b step)]
      /\ env w' = snd (docker.doBuildImage _ (client X) (buildOptions U b step) (env w))
      /\ o = match fst (docker.doBuildImage _ (client X) (buildOptions U b step) (env w)) with
             | Some e => Returned (Some e)
             | None => Cont tt
             end
  end.
Proof.
  unfold buildImage. unfold bind at 1. unfold logf at 1. world.
  set (w0 := {| host := host w; env := env w; calls := calls w; logs := _ |}).
  destruct (replaceFromField_same_host b m step w0 w eq_refl) as [Hfst Hhost].
  pose proof (replaceFromField_effect b m step w0) as (Hc & He & Hres).
  cbv zeta in Hc, He, Hres. rewrite <- Hfst, <- Hhost.
  unfold bind at 1. unfold call.
  destruct (replaceFromField U X b m step w0) as [err w1]. cbn [fst snd] in *.
  destruct err as [e|].
  - unfold bind, check, returnErr. world. intros H. inversion H; subst. auto.
  - unfold bind, check, ret, logf, request, docker_. world.
    fold (buildOptions U b step). rewrite He. subst w0. cbn [env calls] in *.
    destruct (docker.doBuildImage _ _ _ _) as [[e|] e1]; world;
      intros H; inversion H; subst; cbn [host calls env]; rewrite Hc; auto.
Qed.

Lemma BuildStep_unfold (b : Builder) (m : Manifest) (step : Step) (w : World) :
  BuildStep U X b m step w
  = match buildImage U X b m step w with
    | (Cont _, w1) =>
        run (bind (withContainer U X b step)
               (fun _ => sys (fun h => os.Remove h (uniqueDockerfile b step)))) w1
    | (Returned e, w1) => (e, w1)
    end.
Proof.
  unfold BuildStep, run. unfold bind at 1.
  destruct (buildImage U X b m step w) as [[[]|e] w1]; reflexivity.
Qed.


(** X4: If the daemon refuses to build the image, [BuildStep] returns the
    daemon's error after that one request, and the generated build file
    is still on the host. *)
Theorem BuildStep_stops_when_build_fails (b : Builder) (m : Manifest) (step : Step)
    (w : World) (e : error) (e1 : E) :
  fst (replaceFromField U X b m step w) = None ->
  docker.doBuildImage _ (client X) (buildOptions U b step) (env w) = (Some e, e1) ->
  fst (BuildStep U X b m step w) = Some e
  /\ calls (snd (BuildStep U X b m step w))
     = calls w ++ [docker.BuildImage (buildOptions U b step)]
  /\ is_Some (files (host (snd (BuildStep U X b m step w))) !! uniqueDockerfile b step).
Proof.
  intros Hr Hd. rewrite BuildStep_unfold.
  destruct (buildImage U X b m step w) as [o w'] eqn:Hb.
  apply buildImage_result in Hb. rewrite Hr, Hd in Hb. cbn [fst snd] in Hb.
  destruct Hb as (Hh & Hc & _ & ->). cbn [fst snd]. repeat split; auto.
  rewrite Hh.
  pose proof (replaceFromField_effect b m step w) as (_ & _ & Hres).
  cbv zeta in Hres. rewrite Hr in Hres.
  destruct Hres as (rwc & node & children & _ & _ & _ & ->).
  cbn [files os.setFiles]. rewrite lookup_insert_eq. eauto.
Qed.

(** X5: A step without artifacts, cleanup commands and ad hoc command makes
    no container: once the Dockerfile is rewritten and the image built,
    [BuildStep] succeeds with [BuildImage] as its only request, and the
    host's files are those it started with, less the generated file. *)
Theorem BuildStep_plain_step (b : Builder) (m : Manifest) (step : Step)
    (w : World) (e1 : E) :
  plainStep step ->
  fst (replaceFromField U X b m step w) = None ->
  docker.doBuildImage _ (client X) (buildOptions U b step) (env w) = (None, e1) ->
  fst (BuildStep U X b m step w) = None
  /\ calls (snd (BuildStep U X b m step w))
     = calls w ++ [docker.BuildImage (buildOptions U b step)]
  /\ files (host (snd (BuildStep U X b m step w)))
     = delete (uniqueDockerfile b step) (files (host w))
  /\ dirs (host (snd (BuildStep U X b m step w))) = dirs (host w).
Proof.
  intros (Ha & Hcl & Hcmd) Hr Hd. rewrite BuildStep_unfold.
  destruct (buildImage U X b m step w) as [o w'] eqn:Hb.
  apply buildImage_result in Hb. rewrite Hr, Hd in Hb. cbn [fst snd] in Hb.
  destruct Hb as (Hh & Hc & _ & ->).
  unfold withContainer, needsContainer. rewrite Ha, Hcl, Hcmd.
  cbn [length Nat.ltb Nat.leb orb negb String.eqb].
  unfold run, bind, ret, sys. world.
  pose proof (replaceFromField_effect b m step w) as (_ & _ & Hres).
  cbv zeta in Hres. rewrite Hr in Hres.
  destruct Hres as (rwc & node & children & _ & _ & _ & Hhost).
  rewrite Hh, Hhost. unfold os.Remove. cbn [files os.setFiles].
  rewrite lookup_insert_eq. world. cbn [files dirs os.setFiles].
  rewrite delete_insert_eq. auto.
Qed.

End RewriteWrites.

Lemma rewriteChildren_keeps_shape_witness :
  Forall2 sameButImage onAppLines onAppRewritten.
Proof.
  apply (rewriteChildren_keeps_shape Sample.tables (Sample.builder soloManifest "abc")
           soloManifest onAppLines onAppRewritten).
  reflexivity.
Defined.


Lemma BuildStep_stops_when_build_fails_witness :
  let r := BuildStep Sample.tables (refusingWorld plainScript)
             (Sample.builder soloManifest "abc") soloManifest plainSampleStep Sample.start in
  fst r = Some "build failed"
  /\ calls (snd r)
     = [] ++ [docker.BuildImage
                (buildOptions Sample.tables (Sample.builder soloManifest "abc") plainSampleStep)]
  /\ is_Some (files (host (snd r))
                !! uniqueDockerfile (Sample.builder soloManifest "abc") plainSampleStep).
Proof.
  apply (BuildStep_stops_when_build_fails Sample.tables (refusingWorld plainScript)
           (Sample.builder soloManifest "abc") soloManifest plainSampleStep Sample.start
           "build failed" 0%nat).
  - vm_compute. reflexivity.
  - reflexivity.
Defined.

Lemma BuildStep_plain_step_witness :
  let r := BuildStep Sample.tables (Sample.world plainScript)
             (Sample.builder soloManifest "abc") soloManifest plainSampleStep Sample.start in
  fst r = None
  /\ calls (snd r)
     = [] ++ [docker.BuildImage
                (buildOptions Sample.tables (Sample.builder soloManifest "abc") plainSampleStep)]
  /\ files (host (snd r))
     = delete (uniqueDockerfile (Sample.builder soloManifest "abc") plainSampleStep)
         (files Sample.disk)
  /\ dirs (host (snd r)) = dirs Sample.disk.
Proof.
  apply (BuildStep_plain_step Sample.tables (Sample.world plainScript)
           (Sample.builder soloManifest "abc") soloManifest plainSampleStep Sample.start 0%nat).
  - repeat split.
  - vm_compute. reflexivity.
  - reflexivity.
Defined.

(** ** [uniqueStepName]: which pieces of the name survive, and their case *)

Lemma Split_head (s : string) :
  exists tl, strings.Split s ch_colon = beforeColon s :: tl.
Proof.
  induction s as [|c t [tl IH]]; simpl; [eauto|].
  destruct (Ascii.eqb c ch_colon); [eauto|]. rewrite IH. eauto.
Qed.

Lemma isASCII_app (a b : string) : isASCII (a +:+ b) = isASCII a && isASCII b.
Proof.
  induction a as [|c t IH]; [reflexivity|].
  rewrite str_app_cons. simpl. rewrite IH. apply andb_assoc.
Qed.

Lemma Split_ascii (s : string) (sep : ascii) :
  isASCII s = true -> Forall (fun p => isASCII p = true) (strings.Split s sep).
Proof.
  induction s as [|c t IH]; simpl; intros H.
  - repeat constructor.
  - apply andb_true_iff in H as [Hc Ht]. specialize (IH Ht).
    destruct (Ascii.eqb c sep); [constructor; auto|].
    destruct (strings.Split t sep) as [|h r]; [repeat constructor; simpl; rewrite Hc; reflexivity|].
    inversion IH; subst. constructor; [|assumption]. simpl. rewrite Hc. assumption.
Qed.

Lemma piece_ascii (l : list string) (i : nat) :
  Forall (fun p => isASCII p = true) l -> isASCII (default EmptyString (l !! i)) = true.
Proof.
  intros H. destruct (l !! i) as [p|] eqn:Hp; [|reflexivity].
  simpl. rewrite Forall_forall in H. apply H.
  eapply list_elem_of_lookup_2. exact Hp.
Qed.

Lemma lowerByte_not_upper (c : ascii) : upperByte (strings.lowerByte c) = false.
Proof. destruct c as [[] [] [] [] [] [] [] []]; reflexivity. Qed.

Lemma noUpper_lower (s : string) : noUpper (str_map strings.lowerByte s) = true.
Proof.
  induction s as [|c t IH]; [reflexivity|].
  simpl. rewrite lowerByte_not_upper, IH. reflexivity.
Qed.

Section NamePieces.

Context (U : UnicodeTables).

(** X6: With a unique id, a name that holds a colon becomes: what stands
    before the first colon, a dash, the id, a colon, and what stands
    between the first colon and the second; anything from a second colon
    on is dropped.  The whole is folded to lower case. *)
Theorem uniqueStepName_pieces (b : Builder) (st : Step) (base rest : string) :
  UniqueID b <> EmptyString ->
  Name st = base +:+ ":" +:+ rest ->
  strings.Contains base ":" = false ->
  uniqueStepName U b st
  = strings.ToLower U (base +:+ "-" +:+ UniqueID b +:+ ":" +:+ beforeColon rest).
Proof.
  intros Hid Hn Hb. unfold uniqueStepName.
  destruct (String.eqb_spec (UniqueID b) EmptyString) as [Heq|_]; [contradiction|].
  rewrite Hn, Contains_app, (Split_app _ _ Hb).
  destruct (Split_head rest) as [tl ->]. reflexivity.
Qed.

(** X7: With a unique id, and a name and an id made of ASCII bytes, the
    unique name holds no upper-case letter. *)
Theorem uniqueStepName_lower_case (b : Builder) (st : Step) :
  UniqueID b <> EmptyString ->
  isASCII (Name st) = true -> isASCII (UniqueID b) = true ->
  noUpper (uniqueStepName U b st) = true.
Proof.
  intros Hid Hn Hu. unfold uniqueStepName.
  destruct (String.eqb_spec (UniqueID b) EmptyString) as [Heq|_]; [contradiction|].
  unfold strings.ToLower.
  match goal with
  | |- context [isASCII ?s] => assert (isASCII s = true) as ->
  end.
  { destruct (strings.Contains (Name st) ":").
    - rewrite !isASCII_app, Hu.
      rewrite !(piece_ascii _ _ (Split_ascii _ ch_colon Hn)). reflexivity.
    - rewrite !isASCII_app, Hn, Hu. reflexivity. }
  apply noUpper_lower.
Qed.

End NamePieces.

Lemma uniqueStepName_pieces_witness :
  uniqueStepName Sample.tables (Sample.builder soloManifest "abc") mixedCaseStep
  = strings.ToLower Sample.tables
      ("Registry.Example/My_App" +:+ "-" +:+ "abc" +:+ ":" +:+ beforeColon "V1:old").
Proof.
  apply (uniqueStepName_pieces Sample.tables (Sample.builder soloManifest "abc")
           mixedCaseStep "Registry.Example/My_App" "V1:old").
  - discriminate.
  - reflexivity.
  - reflexivity.
Defined.

Lemma uniqueStepName_lower_case_witness :
  noUpper (uniqueStepName Sample.tables (Sample.builder soloManifest "abc") mixedCaseStep)
  = true.
Proof.
  apply (uniqueStepName_lower_case Sample.tables (Sample.builder soloManifest "abc")
           mixedCaseStep).
  - discriminate.
  - reflexivity.
  - reflexivity.
Defined.

Example uniqueStepName_mixed_case :
  uniqueStepName Sample.tables (Sample.builder soloManifest "abc") mixedCaseStep
  = "registry.example/my_app-abc:v1".
Proof. reflexivity. Qed.

(** ** [createContainer]: the name of the container *)

Lemma replaceRuns_wordOnly (s : string) :
  forall inRun, wordOnly (replaceRuns inRun s) = true.
Proof.
  induction s as [|c t IH]; intros inRun; [reflexivity|].
  simpl. destruct (wordByte c) eqn:Hc.
  - simpl. rewrite Hc, IH. reflexivity.
  - destruct inRun; [apply IH|]. simpl. rewrite IH. reflexivity.
Qed.

Section ContainerName.

Context (U : UnicodeTables) {E : Type} (X : Outside E).

(** X8: [createContainer] sends one request and leaves the host alone.  The
    container runs the step's image; its name is the unique name of the
    step with every run of other bytes turned into one dash, then a dot
    and the random suffix: before the dot it holds letters, digits,
    underscores and dashes only. *)
Theorem createContainer_request (b : Builder) (step : Step) (w : World) :
  let name := replaceRuns false (uniqueStepName U b step) in
  let suffix := fst (uniuriNew X (env w)) in
  let r := createContainer U X b step w in
  calls (snd r)
  = calls w ++ [docker.CreateContainer
                  {| docker.cName := name +:+ "." +:+ suffix;
                     docker.cConfig := containerConfig U b step |}]
  /\ wordOnly name = true
  /\ host (snd r) = host w.
Proof.
  cbv zeta. unfold createContainer, bind, outside, request, try, ret, returnErr, docker_.
  world. destruct (uniuriNew X (env w)) as [suffix e1]. world.
  fold (containerConfig U b step).
  destruct (docker.doCreateContainer _ _ _ _) as [[c|e] e2]; world;
    (split; [reflexivity|]); (split; [apply replaceRuns_wordOnly|reflexivity]).
Qed.

End ContainerName.

Example createContainer_name_sample :
  replaceRuns false "registry.example:5000/my_app-abc:v1"
  = "registry-example-5000-my_app-abc-v1".
Proof. reflexivity. Qed.

(** ** [copyToHost]: what it touches and when it fails *)

Ltac world_in H := cbv beta iota in H; cbn [host env calls logs setHost fst snd] in H.

Lemma createWith_frame (perm : Z) (h h' : Host) (p q : string) :
  os.createWith perm h p = Ok h' -> q <> p -> files h' !! q = files h !! q.
Proof.
  unfold os.createWith. intros H Hq.
  destruct (files h !! p).
  - inversion H. cbn [files os.setFiles]. apply lookup_insert_ne. auto.
  - destruct (os.isDir h p); [discriminate|].
    destruct (negb (os.isDir h (os.Dir p))); [discriminate|].
    inversion H. cbn [files os.setFiles]. apply lookup_insert_ne. auto.
Qed.

Lemma write_frame (h : Host) (p q d : string) :
  q <> p -> files (os.write h p d) !! q = files h !! q.
Proof.
  unfold os.write. intros Hq. destruct (files h !! p); [|reflexivity].
  cbn [files os.setFiles]. apply lookup_insert_ne. auto.
Qed.

Lemma Chmod_frame (h h' : Host) (p q : string) (m : Z) :
  os.Chmod h p m = Ok h' -> q <> p -> files h' !! q = files h !! q.
Proof.
  unfold os.Chmod. intros H Hq. destruct (files h !! p).
  - inversion H. cbn [files os.setFiles]. apply lookup_insert_ne. auto.
  - destruct (os.isDir h p); inversion H. reflexivity.
Qed.

Section CopyFrame.

Context {E : Type} (X : Outside E).

Lemma extract_frame (a : Artifact) (p q : string) (tr : option error) (es : list tar.Entry) :
  q <> p ->
  forall (w w' : World (E:=E)) (o : Outcome unit),
    extract a p es tr w = (o, w') ->
    files (host w') !! q = files (host w) !! q /\ dirs (host w') = dirs (host w).
Proof.
  intros Hq. induction es as [|hdr rest IH]; intros w w' o H.
  - simpl in H. destruct tr; inversion H; auto.
  - simpl in H. destruct (Ascii.eqb (tar.Typeflag hdr) tar.TypeReg).
    2:{ inversion H. auto. }
    unfold bind, logf, sys, check, ret, returnErr in H. world_in H.
    destruct (os.Create (host w) p) as [h1|e] eqn:Hc; world_in H.
    2:{ inversion H. auto. }
    assert (Hd : dirs h1 = dirs (host w)).
    { unfold os.Create, os.createWith in Hc. destruct (files (host w) !! p).
      - inversion Hc. reflexivity.
      - destruct (os.isDir (host w) p); [discriminate|].
        destruct (negb _); inversion Hc. reflexivity. }
    pose proof (createWith_frame _ _ _ _ q Hc Hq) as Hf.
    destruct (tar.CopyErr hdr); world_in H.
    + inversion H; subst. cbn [host setHost]. rewrite (write_frame _ _ _ _ Hq).
      split; [exact Hf|]. unfold os.write. destruct (files h1 !! p); exact Hd.
    + apply IH in H. cbn [host setHost] in H. rewrite (write_frame _ _ _ _ Hq) in H.
      destruct H as [H1 H2]. split; [congruence|].
      rewrite H2. unfold os.write. destruct (files h1 !! p); exact Hd.
Qed.

(** X9: Whatever [copyToHost] returns, it has changed no file of the host but
    the destination of the artifact. *)
Theorem copyToHost_touches_one_file (b : Builder) (a : Artifact) (container : string)
    (perms : gmap string Z) (w : World) (q : string) :
  q <> destFile b a ->
  files (host (snd (copyToHost X b a container perms w))) !! q = files (host w) !! q.
Proof.
  intros Hq.
  unfold copyToHost, run, bind, sys, request, try, ret, returnErr, logf, docker_.
  destruct (os.MkdirAll (host w) (destPath b a)) as [h1|e] eqn:Hmk; world; [|reflexivity].
  destruct (MkdirAll_ok _ _ _ Hmk) as (-> & _ & _).
  destruct (docker.doDownloadFromContainer _ _ _ _ _) as [[out|e] e1]; world; [|reflexivity].
  match goal with
  | |- context [extract a (destFile b a) (tar.entries out) (tar.trailer out) ?w1] =>
      destruct (extract a (destFile b a) (tar.entries out) (tar.trailer out) w1)
        as [[[]|e] w2] eqn:Hx;
      apply (extract_frame a _ q _ _ Hq) in Hx; cbn [host files dirs os.setDirs] in Hx;
      destruct Hx as [Hx _]
  end; world; [|exact Hx].
  destruct (os.Chmod (host w2) (destFile b a) (artifactMode a perms)) as [h3|e] eqn:Hch; world.
  - rewrite (Chmod_frame _ _ _ _ _ Hch Hq). exact Hx.
  - exact Hx.
Qed.

Lemma extract_irregular (a : Artifact) (p : string) (tr : option error) (es : list tar.Entry) :
  Exists irregular es ->
  forall w : World (E:=E), exists e w', extract a p es tr w = (Returned (Some e), w').
Proof.
  induction 1 as [hdr rest Hh|hdr rest _ IH]; intros w; simpl.
  - destruct (Ascii.eqb_spec (tar.Typeflag hdr) tar.TypeReg) as [Heq|_]; [contradiction|].
    unfold returnErr. eauto.
  - destruct (Ascii.eqb (tar.Typeflag hdr) tar.TypeReg); [|unfold returnErr; eauto].
    unfold bind, logf, sys, check, ret, returnErr. world.
    destruct (os.Create (host w) p) as [h1|e]; world; [|eauto].
    destruct (tar.CopyErr hdr); world; [eauto|]. apply IH.
Qed.

(** X10: An archive that holds anything but regular files, a directory or a
    link, makes [copyToHost] fail, wherever the entry stands. *)
Theorem copyToHost_rejects_other_entries (b : Builder) (a : Artifact) (container : string)
    (perms : gmap string Z) (w : World) (out : tar.Archive) (e1 : E) :
  docker.doDownloadFromContainer _ (client X) container (Source a) (env w) = (Ok out, e1) ->
  Exists irregular (tar.entries out) ->
  is_Some (fst (copyToHost X b a container perms w)).
Proof.
  intros Hdl Hirr.
  unfold copyToHost, run, bind, sys, request, try, ret, returnErr, logf, docker_.
  destruct (os.MkdirAll (host w) (destPath b a)) as [h1|e]; world; [|eauto].
  rewrite Hdl. world.
  match goal with
  | |- context [extract a (destFile b a) (tar.entries out) (tar.trailer out) ?w1] =>
      destruct (extract_irregular a (destFile b a) (tar.trailer out) _ Hirr w1)
        as (e & w2 & ->)
  end.
  world. eauto.
Qed.

(** X11: When the download fails [copyToHost] returns the daemon's error and
    has written no file: it has only made the destination directory. *)
Theorem copyToHost_download_fails (b : Builder) (a : Artifact) (container : string)
    (perms : gmap string Z) (w : World) (h1 : Host) (e : error) (e1 : E) :
  os.MkdirAll (host w) (destPath b a) = Ok h1 ->
  docker.doDownloadFromContainer _ (client X) container (Source a) (env w) = (Err e, e1) ->
  fst (copyToHost X b a container perms w) = Some e
  /\ files (host (snd (copyToHost X b a container perms w))) = files (host w)
  /\ destPath b a ∈ dirs (host (snd (copyToHost X b a container perms w))).
Proof.
  intros Hmk Hdl. unfold copyToHost, run, bind, sys, request, try, returnErr, docker_.
  rewrite Hmk. world. rewrite Hdl. world.
  destruct (MkdirAll_ok _ _ _ Hmk) as (-> & _ & _). cbn [files dirs os.setDirs].
  repeat split. apply elem_of_union_r, elem_of_list_to_set. left.
Qed.

End CopyFrame.

(** ** The two loops over execs: cleanup commands and permissions *)

Section ExecLoops.

Context {E : Type} (X : Outside E).

(** X12: As long as the daemon creates the execs, the loop over the cleanup
    commands runs every command, in order, split at its spaces: an exec
    that does not start is logged and the loop goes on.  The host is not
    touched. *)
Theorem runCleanup_runs_every_command (id : string) (cmds : list string) :
  execsCreatable X ->
  forall w : World,
  exists (w' : World) (l : list docker.Call),
    runCleanup X id cmds w = (Cont tt, w')
    /\ host w' = host w
    /\ calls w' = calls w ++ l
    /\ omap createdExec l
       = map (fun cmd => execOptions id false (strings.Split cmd ch_space)) cmds
    /\ length l = (2 * length cmds)%nat.
Proof.
  intros Hx. induction cmds as [|cmd rest IH]; intros w.
  - exists w, []. simpl. unfold ret. rewrite app_nil_r. auto.
  - cbn [runCleanup]. unfold createExec, startExec; unfold bind, logf, request, try, ret, returnErr, docker_. world.
    destruct (Hx (execOptions id false (strings.Split cmd ch_space)) (env w))
      as (x & e1 & ->). world.
    destruct (docker.doStartExec _ _ _ _ _) as [[o err] e2]. world.
    destruct err; world;
      match goal with
      | |- context [runCleanup X id rest ?w1] =>
          destruct (IH w1) as (w' & l & -> & Hh & Hc & Hm & Hl)
      end;
      cbn [host calls] in Hh, Hc;
      exists w', (docker.CreateExec (execOptions id false (strings.Split cmd ch_space))
                  :: docker.StartExec (docker.execID x) cleanupStream :: l);
      (split; [reflexivity|]); (split; [exact Hh|]);
      (split; [rewrite Hc, <- !app_assoc; reflexivity|]);
      (split; [simpl; f_equal; exact Hm|]);
      simpl; rewrite Hl; lia.
Qed.

(** X13: As long as the daemon creates the execs, the loop that reads the
    permissions never fails: an exec that does not start and an answer
    that is no number are logged and the loop goes on.  It asks for one
    [stat] per artifact, records an entry for every artifact, leaves the
    other entries of the map and the host alone. *)
Theorem statPerms_records_every_artifact (id : string) (arts : list Artifact) :
  execsCreatable X ->
  forall (pm : gmap string Z) (w : World),
  exists (pm' : gmap string Z) (w' : World) (l : list docker.Call),
    statPerms X id arts pm w = (Cont pm', w')
    /\ host w' = host w
    /\ calls w' = calls w ++ l
    /\ omap createdExec l = map (statCommand id) arts
    /\ (forall a, a ∈ arts -> is_Some (pm' !! Source a))
    /\ (forall k, k ∉ map Source arts -> pm' !! k = pm !! k).
Proof.
  intros Hx. induction arts as [|art rest IH]; intros pm w.
  - exists pm, w, []. simpl. unfold ret. rewrite app_nil_r.
    repeat split; auto. intros a Ha. inversion Ha.
  - cbn [statPerms]. unfold createExec, startExec; unfold bind, logf, request, try, ret, returnErr, docker_. world.
    destruct (Hx (statCommand id art) (env w)) as (x & e1 & ->). world.
    destruct (docker.doStartExec _ _ _ _ _) as [[o err] e2]. world.
    destruct (strconv.Atoi (permsString o)) as [perms perr].
    destruct err, perr; world;
      match goal with
      | |- context [statPerms X id rest ?pm1 ?w1] =>
          destruct (IH pm1 w1) as (pm' & w' & l & -> & Hh & Hc & Hm & Hin & Hout)
      end;
      cbn [host calls] in Hh, Hc;
      exists pm', w', (docker.CreateExec (statCommand id art)
                       :: docker.StartExec (docker.execID x) statStream :: l);
      (split; [reflexivity|]); (split; [exact Hh|]);
      (split; [rewrite Hc, <- !app_assoc; reflexivity|]);
      (split; [simpl; f_equal; exact Hm|]);
      (split;
       [intros a Ha; apply elem_of_cons in Ha as [->|Ha]; [|auto];
        destruct (decide (Source art ∈ map Source rest)) as [Hs|Hs];
        [apply list_elem_of_fmap in Hs as (a' & -> & Ha'); auto
        |rewrite (Hout _ Hs), lookup_insert_eq; eauto]
       |intros k Hk; rewrite Hout;
        [apply lookup_insert_ne; intros <-; apply Hk; left
        |intros Hk'; apply Hk; right; exact Hk']]).
Qed.

End ExecLoops.

Lemma copyToHost_touches_one_file_witness :
  files (host (snd (copyToHost (Sample.world extractScript) extractBuilder appBin "c1"
                      (recorded 644) Sample.start))) !! "/w/Dockerfile"
  = files (host Sample.start) !! "/w/Dockerfile".
Proof.
  apply (copyToHost_touches_one_file (Sample.world extractScript) extractBuilder appBin "c1"
           (recorded 644) Sample.start "/w/Dockerfile").
  discriminate.
Defined.

Lemma copyToHost_rejects_other_entries_witness :
  is_Some (fst (copyToHost (Sample.world dirScript) extractBuilder appBin "c1"
                  (recorded 755) Sample.start)).
Proof.
  apply (copyToHost_rejects_other_entries (Sample.world dirScript) extractBuilder appBin "c1"
           (recorded 755) Sample.start dirArchive 0%nat).
  - reflexivity.
  - left. discriminate.
Defined.

Lemma copyToHost_download_fails_witness :
  let r := copyToHost (silentWorld extractScript) extractBuilder appBin "c1"
             (recorded 644) Sample.start in
  fst r = Some "no such file in container"
  /\ files (host (snd r)) = files (host Sample.start)
  /\ destPath extractBuilder appBin ∈ dirs (host (snd r)).
Proof.
  apply (copyToHost_download_fails (silentWorld extractScript) extractBuilder appBin "c1"
           (recorded 644) Sample.start
           (os.setDirs Sample.disk (dirs Sample.disk ∪ list_to_set ["/w/out"; "/w"; "/"]))
           "no such file in container" 0%nat).
  - reflexivity.
  - reflexivity.
Defined.

Lemma sample_execs_creatable (s : Sample.Script) : execsCreatable (silentWorld s).
Proof. intros opts e. exists {| docker.execID := "x1" |}, e. reflexivity. Defined.

Lemma runCleanup_runs_every_command_witness :
  exists (w' : World) (l : list docker.Call),
    runCleanup (silentWorld extractScript) "c1" ["rm -rf /var/cache"; "apt-get clean"]
      Sample.start = (Cont tt, w')
    /\ host w' = host Sample.start
    /\ calls w' = calls Sample.start ++ l
    /\ omap createdExec l
       = map (fun cmd => execOptions "c1" false (strings.Split cmd ch_space))
           ["rm -rf /var/cache"; "apt-get clean"]
    /\ length l = (2 * 2)%nat.
Proof.
  apply (runCleanup_runs_every_command (silentWorld extractScript) "c1"
           ["rm -rf /var/cache"; "apt-get clean"] (sample_execs_creatable extractScript)
           Sample.start).
Defined.

Lemma statPerms_records_every_artifact_witness :
  exists (pm' : gmap string Z) (w' : World) (l : list docker.Call),
    statPerms (silentWorld extractScript) "c1" [appBin; libSo] ∅ Sample.start = (Cont pm', w')
    /\ host w' = host Sample.start
    /\ calls w' = calls Sample.start ++ l
    /\ omap createdExec l = map (statCommand "c1") [appBin; libSo]
    /\ (forall a, a ∈ [appBin; libSo] -> is_Some (pm' !! Source a))
    /\ (forall k, k ∉ map Source [appBin; libSo] -> pm' !! k = (∅ : gmap string Z) !! k).
Proof.
  apply (statPerms_records_every_artifact (silentWorld extractScript) "c1" [appBin; libSo]
           (sample_execs_creatable extractScript) ∅ Sample.start).
Defined.

(** ** The requests a step sends, and their order *)

Create HintDb emits.

Section Requests.

Context (U : UnicodeTables) {E : Type} (X : Outside E).

Lemma emits_silent {R} (P : docker.Call -> Prop) (f : World (E:=E) -> R * World) :
  (forall w, calls (snd (f w)) = calls w) -> emits P f.
Proof. intros H w. exists []. rewrite app_nil_r. auto. Qed.

Lemma emits_ret {A} P (a : A) : emits (E:=E) P (ret a).
Proof. apply emits_silent. reflexivity. Qed.

Lemma emits_returnErr {A} P (e : option error) : emits (E:=E) P (returnErr (A:=A) e).
Proof. apply emits_silent. reflexivity. Qed.

Lemma emits_bind {A B} P (m : M A) (k : A -> M B) :
  emits (E:=E) P m -> (forall a, emits P (k a)) -> emits P (bind m k).
Proof.
  intros Hm Hk w. unfold bind. destruct (Hm w) as (l1 & H1 & F1).
  destruct (m w) as [[a|e] w1]; cbn [snd] in *.
  - destruct (Hk a w1) as (l2 & H2 & F2). exists (l1 ++ l2).
    rewrite H2, H1, app_assoc. split; [reflexivity|apply Forall_app; auto].
  - exists l1. auto.
Qed.

Lemma emits_check P (err : option error) : emits (E:=E) P (check err).
Proof. apply emits_silent. intros w. destruct err; reflexivity. Qed.

Lemma emits_try {A} P (r : Res A) : emits (E:=E) P (try r).
Proof. apply emits_silent. intros w. destruct r; reflexivity. Qed.

Lemma emits_sys P (f : Host -> Res Host) : emits (E:=E) P (sys f).
Proof. apply emits_silent. intros w. unfold sys. destruct (f (host w)); reflexivity. Qed.

Lemma emits_request {A} (P : docker.Call -> Prop) (c : docker.Call) (f : E -> A * E) :
  P c -> emits P (request c f).
Proof.
  intros Hc w. exists [c]. unfold request. destruct (f (env w)). cbn [snd calls]. auto.
Qed.

Lemma emits_outside {A} P (f : E -> A * E) : emits P (outside f).
Proof. apply emits_silent. intros w. unfold outside. destruct (f (env w)). reflexivity. Qed.

Lemma emits_logf P (l : Level) (fmt : string) (a : list LogArg) :
  emits (E:=E) P (logf l fmt a).
Proof. apply emits_silent. reflexivity. Qed.

Lemma emits_getHost P : emits (E:=E) P getHost.
Proof. apply emits_silent. reflexivity. Qed.

Lemma emits_call P (f : World -> option error * World) :
  emits (E:=E) P f -> emits P (call f).
Proof.
  intros Hf w. destruct (Hf w) as (l & H & F). exists l. unfold call.
  destruct (f w). auto.
Qed.

Lemma emits_run P (m : M unit) : emits (E:=E) P m -> emits P (run m).
Proof.
  intros Hm w. destruct (Hm w) as (l & H & F). exists l. unfold run.
  destruct (m w) as [[[]|e] w1]; auto.
Qed.

Hint Resolve emits_ret emits_returnErr emits_check emits_try emits_sys emits_outside
  emits_logf emits_getHost : emits.

Ltac emits :=
  repeat match goal with
         | |- emits _ (bind _ _) => apply emits_bind; [|intros]
         | |- emits _ (run _) => apply emits_run
         | |- emits _ (call _) => apply emits_call
         | |- emits _ (request _ _) => apply emits_request; first [exact I|reflexivity]
         | |- emits _ (match ?x with _ => _ end) => destruct x
         | |- emits _ (let (_, _) := ?p in _) => destruct p
         | |- forall _, _ => intros
         end;
  eauto with emits.

Lemma emits_extract P (a : Artifact) (p : string) (es : list tar.Entry)
    (trailer : option error) :
  emits (E:=E) P (extract a p es trailer).
Proof. induction es as [|hdr rest IH]; cbn [extract]; emits. Qed.

Hint Resolve emits_extract : emits.

Lemma emits_copyToHost (b : Builder) (a : Artifact) (id : string) (pm : gmap string Z) :
  emits (aimedAt id) (copyToHost X b a id pm).
Proof. unfold copyToHost. emits. Qed.

Lemma emits_startContainer (id : string) : emits (aimedAt id) (startContainer X id).
Proof. unfold startContainer. emits. Qed.

Lemma emits_stopContainer (id : string) : emits (aimedAt id) (stopContainer X id).
Proof. unfold stopContainer. emits. Qed.

Lemma emits_removeContainer (id : string) : emits (aimedAt id) (removeContainer X id).
Proof. unfold removeContainer. emits. Qed.

Hint Resolve emits_copyToHost emits_startContainer emits_stopContainer
  emits_removeContainer : emits.

Lemma emits_runCleanup (id : string) (cmds : list string) :
  emits (aimedAt id) (runCleanup X id cmds).
Proof.
  induction cmds as [|c l IH]; cbn [runCleanup]; unfold createExec, startExec; emits.
Qed.

Lemma emits_statPerms (id : string) (arts : list Artifact) :
  forall pm, emits (aimedAt id) (statPerms X id arts pm).
Proof.
  induction arts as [|a l IH]; intros pm; cbn [statPerms]; unfold createExec, startExec;
    emits.
Qed.

Lemma emits_copyAll (b : Builder) (id : string) (arts : list Artifact) (pm : gmap string Z) :
  emits (aimedAt id) (copyAll X b id arts pm).
Proof. induction arts as [|a l IH]; cbn [copyAll]; emits. Qed.

Hint Resolve emits_runCleanup emits_statPerms emits_copyAll : emits.

Lemma emits_cleanupAndSquash (b : Builder) (step : Step) (id : string) :
  emits (aimedAt id) (cleanupAndSquash U X b step id).
Proof. unfold cleanupAndSquash. emits. Qed.

Lemma emits_fetchArtifacts (b : Builder) (step : Step) (id : string) :
  emits (aimedAt id) (fetchArtifacts X b step id).
Proof. unfold fetchArtifacts. emits. Qed.

Lemma emits_runCommand (step : Step) (id : string) :
  emits (aimedAt id) (runCommand X step id).
Proof. unfold runCommand, createExec, startExec. emits. Qed.

Hint Resolve emits_cleanupAndSquash emits_fetchArtifacts emits_runCommand : emits.

(** what follows the creation of the container *)
Lemma emits_inContainer (b : Builder) (step : Step) (id : string) :
  emits (aimedAt id)
    (bind (if negb (NoSquash (Conf b)) && (0 <? length (Commands (Cleanup step)))%nat
           then cleanupAndSquash U X b step id else ret tt)
       (fun _ =>
          bind (if (0 <? length (Artifacts step))%nat
                then fetchArtifacts X b step id else ret tt)
            (fun _ =>
               bind (if negb (String.eqb (Command step) EmptyString)
                     then runCommand X step id else ret tt)
                 (fun _ => removeContainer X id)))).
Proof. emits. Qed.

Lemma withContainer_requests (b : Builder) (step : Step) (w : World) :
  exists l,
    calls (snd (withContainer U X b step w)) = calls w ++ l
    /\ match l with
       | [] => True
       | c1 :: l2 =>
           (exists name, c1 = docker.CreateContainer
                                {| docker.cName := name;
                                   docker.cConfig := containerConfig U b step |})
           /\ exists id, Forall (aimedAt id) l2
       end.
Proof.
  unfold withContainer. destruct (needsContainer step).
  2:{ exists []. cbn [ret snd]. rewrite app_nil_r. auto. }
  unfold bind at 1. unfold logf at 1. world.
  unfold bind at 1. unfold createContainer.
  unfold bind at 1. unfold outside at 1. world.
  destruct (uniuriNew X (env w)) as [suffix e1]. world.
  unfold bind at 1. unfold request at 1. world. fold (containerConfig U b step).
  destruct (docker.doCreateContainer _ _ _ _) as [[c|er] e2]; world.
  - unfold try at 1, ret at 1. world.
    match goal with
    | |- context [bind ?m ?k ?w1] =>
        destruct (emits_inContainer b step (docker.ID c) w1) as (l & Hl & Fl)
    end.
    rewrite Hl. cbn [calls]. eexists (_ :: l). rewrite <- app_assoc. split; [reflexivity|].
    split; [eexists; reflexivity|exists (docker.ID c); exact Fl].
  - unfold try at 1, returnErr at 1. world.
    eexists [_]. split; [reflexivity|]. split; [eexists; reflexivity|exists EmptyString; auto].
Qed.

(** X14: Whatever the daemon and the host answer, a step keeps the record of
    requests it found and adds to it, in this order: nothing (the rewrite
    failed), or the build of the image with the step's options; then, if
    anything at all, the creation of one container from that image; then
    only requests that name one and the same container.  No second image
    is built and no second container is created. *)
Theorem BuildStep_requests (b : Builder) (m : Manifest) (step : Step) (w : World) :
  exists l,
    calls (snd (BuildStep U X b m step w)) = calls w ++ l /\ stepRequests U b step l.
Proof.
  rewrite BuildStep_unfold.
  destruct (buildImage U X b m step w) as [[[]|e] w1] eqn:Hb;
    pose proof (buildImage_result U X b m step w w1 _ Hb) as Hr;
    destruct (fst (replaceFromField U X b m step w)) as [e0|].
  - destruct Hr as [Ho _]. discriminate.
  - destruct Hr as (_ & Hc & _ & _).
    assert (Hw : exists l, calls (snd (run (bind (withContainer U X b step)
                  (fun _ => sys (fun h => os.Remove h (uniqueDockerfile b step)))) w1))
                = calls w1 ++ l
                /\ match l with
                   | [] => True
                   | c1 :: l2 =>
                       (exists name, c1 = docker.CreateContainer
                                            {| docker.cName := name;
                                               docker.cConfig := containerConfig U b step |})
                       /\ exists id, Forall (aimedAt id) l2
                   end).
    { destruct (withContainer_requests b step w1) as (l & Hl & Hs). exists l.
      split; [|exact Hs]. rewrite <- Hl. unfold run, bind, sys.
      destruct (withContainer U X b step w1) as [[[]|e] w2]; cbn [snd]; [|reflexivity].
      destruct (os.Remove _ _); reflexivity. }
    destruct Hw as (l & Hl & Hs). exists (docker.BuildImage (buildOptions U b step) :: l).
    rewrite Hl, Hc, <- app_assoc. split; [reflexivity|]. split; [reflexivity|exact Hs].
  - destruct Hr as (_ & _ & Hc & _). exists []. cbn [snd]. rewrite Hc, app_nil_r.
    split; [reflexivity|exact I].
  - destruct Hr as (_ & Hc & _ & _). exists [docker.BuildImage (buildOptions U b step)].
    cbn [snd]. split; [exact Hc|]. split; [reflexivity|exact I].
Qed.

End Requests.

(** ** [overwrite] *)

(** X15: [overwrite] does to the host what [os.Create] does: it fails where
    [os.Create] fails, with the same error, and otherwise leaves the file
    empty, with the mode it had or, when new, 0666 less the umask.  The
    first attempt without [O_CREATE] changes nothing to that. *)
Theorem overwrite_is_Create (h : Host) (p : string) : overwrite h p = os.Create h p.
Proof.
  unfold overwrite, openTruncate, os.Create, os.createWith.
  destruct (files h !! p) as [f|]; [reflexivity|].
  destruct (os.isDir h p); [reflexivity|].
  destruct (negb (os.isDir h (os.Dir p))); reflexivity.
Qed.

(** ** The name of the build file in the build request *)

Lemma Contains_slash_cons (c : ascii) (t : string) :
  strings.Contains (String c t) "/" = Ascii.eqb c ch_slash || strings.Contains t "/".
Proof.
  cbn [strings.Contains]. f_equal.
  change (String.prefix "/" (String c t))
    with (if ascii_dec ch_slash c then String.prefix EmptyString t else false).
  destruct (ascii_dec ch_slash c) as [<-|Hne].
  - destruct t; reflexivity.
  - symmetry. apply Ascii.eqb_neq. congruence.
Qed.

Lemma takeElem_bare (r : string) : strings.Contains (filepath.takeElem r) "/" = false.
Proof.
  induction r as [|c t IH]; [reflexivity|]. cbn [filepath.takeElem].
  destruct (Ascii.eqb c ch_slash) eqn:Hc; [reflexivity|].
  rewrite Contains_slash_cons, Hc, IH. reflexivity.
Qed.

Lemma str_rev_onto_bare (s : string) :
  forall acc,
    strings.Contains s "/" = false -> strings.Contains acc "/" = false ->
    strings.Contains (str_rev_onto s acc) "/" = false.
Proof.
  induction s as [|c t IH]; intros acc Hs Ha; [exact Ha|].
  rewrite Contains_slash_cons in Hs. apply orb_false_iff in Hs as [Hc Ht].
  cbn [str_rev_onto]. apply IH; [exact Ht|].
  rewrite Contains_slash_cons, Hc, Ha. reflexivity.
Qed.

Lemma str_rev_onto_app (s : string) :
  forall acc, str_rev_onto s acc = str_rev s +:+ acc.
Proof.
  unfold str_rev. induction s as [|c t IH]; intros acc; [reflexivity|].
  cbn [str_rev_onto]. rewrite (IH (String c acc)), (IH (String c EmptyString)).
  rewrite str_app_assoc. reflexivity.
Qed.

Lemma str_rev_app (a b : string) : str_rev (a +:+ b) = str_rev b +:+ str_rev a.
Proof.
  induction a as [|c t IH].
  - rewrite str_app_nil_l, str_app_nil_r. reflexivity.
  - rewrite str_app_cons. unfold str_rev at 1 3. cbn [str_rev_onto].
    rewrite !str_rev_onto_app, IH, str_app_assoc. reflexivity.
Qed.

Lemma Base_generated (j : string) :
  strings.Contains (filepath.Base (j +:+ ".generated")) "/" = false.
Proof.
  assert (Hr : str_rev (j +:+ ".generated") = String "d" ("etareneg." +:+ str_rev j)).
  { rewrite str_rev_app. reflexivity. }
  unfold filepath.Base. rewrite Hr. cbn [filepath.dropSlashes].
  change (Ascii.eqb "d" ch_slash) with false. cbv iota.
  destruct (j +:+ ".generated") eqn:Hj.
  - destruct j; discriminate.
  - unfold str_rev. apply str_rev_onto_bare; [apply takeElem_bare|reflexivity].
Qed.

(** X16: The build request hands the daemon a bare file name for the build
    file: whatever directory the step's Dockerfile lies in, the name in
    the request holds no slash, while the context directory stays the
    work directory. *)
Theorem buildOptions_bare_dockerfile (U : UnicodeTables) (b : Builder) (step : Step) :
  strings.Contains (docker.bDockerfile (buildOptions U b step)) "/" = false
  /\ docker.bContextDir (buildOptions U b step) = Workdir (Conf b).
Proof. split; [apply Base_generated|reflexivity]. Qed.

(** a build file two directories down: written next to the Dockerfile,
    asked for at the top of the context *)
Example buildOptions_subdirectory :
  uniqueDockerfile extractBuilder subdirStep = "/w/docker/app/Dockerfile.generated"
  /\ docker.bDockerfile (buildOptions Sample.tables extractBuilder subdirStep)
     = "Dockerfile.generated".
Proof. split; vm_compute; reflexivity. Qed.

(** ** The temporary files of the squash *)




Section SquashFiles.

Context (U : UnicodeTables) {E : Type} (X : Outside E).



End SquashFiles.


(** ** A build file of plain lines is written back line by line *)

Lemma startsPlain_app (s t : string) :
  s <> EmptyString -> startsPlain s = true -> startsPlain (s +:+ t) = true.
Proof. destruct s as [|c r]; [congruence|]. intros _ H. exact H. Qed.

Lemma str_rev_nonempty (s : string) : s <> EmptyString -> str_rev s <> EmptyString.
Proof.
  intros Hs Hr. apply Hs. rewrite <- (str_rev_involutive s), Hr. reflexivity.
Qed.

Lemma str_app_nonempty (s t : string) : s <> EmptyString -> s +:+ t <> EmptyString.
Proof. destruct s; [congruence|discriminate]. Qed.

Lemma joinWith_cons (sep x y : string) (r : list string) :
  path.joinWith sep (x :: y :: r) = x +:+ sep +:+ path.joinWith sep (y :: r).
Proof. reflexivity. Qed.

(** the lines with a line end after each are the lines joined by line
    ends, and one more line end *)
Lemma concat_lines (x : string) (ls : list string) :
  str_concat (map (fun s => s +:+ newline) (x :: ls))
  = path.joinWith newline (x :: ls) +:+ newline.
Proof.
  revert x. induction ls as [|y r IH]; intros x.
  - cbn [map str_concat path.joinWith]. rewrite str_app_nil_r. reflexivity.
  - rewrite joinWith_cons. cbn [map str_concat] in *. rewrite IH, !str_app_assoc.
    reflexivity.
Qed.

Lemma joined_lines_plain (x : string) (ls : list string) :
  Forall (fun s => plainEnds s = true /\ s <> EmptyString) (x :: ls) ->
  plainEnds (path.joinWith newline (x :: ls)) = true
  /\ path.joinWith newline (x :: ls) <> EmptyString.
Proof.
  revert x. induction ls as [|y r IH]; intros x Hall.
  - inversion Hall as [|? ? [Hp Hn] _]; subst. auto.
  - inversion Hall as [|? ? [Hp Hn] Hrest]; subst.
    destruct (IH y Hrest) as [Hq Hm]. rewrite joinWith_cons.
    unfold plainEnds in *.
    apply andb_true_iff in Hp as [Hp1 Hp2]. apply andb_true_iff in Hq as [Hq1 Hq2].
    split; [|apply str_app_nonempty, Hn].
    apply andb_true_iff. split.
    + apply startsPlain_app; assumption.
    + rewrite !str_rev_app, str_app_assoc.
      apply startsPlain_app; [apply str_rev_nonempty, Hm|exact Hq2].
Qed.

Lemma TrimSpace_line_end (U : UnicodeTables) (s : string) :
  plainEnds s = true -> s <> EmptyString ->
  strings.TrimSpace U (s +:+ newline) = s.
Proof.
  intros Hp Hn. unfold plainEnds in Hp. apply andb_true_iff in Hp as [H1 H2].
  pose proof (startsPlain_app s newline Hn H1) as H1'.
  destruct (dropSpaces_plain _ H1') as [E1 N1].
  destruct (dropSpaces_plain _ H2) as [E2 N2].
  unfold strings.TrimSpace. rewrite E1, N1, str_rev_app.
  change (str_rev newline +:+ str_rev s) with (String ch_nl (str_rev s)).
  cbn [strings.dropSpaces].
  change (strings.asciiSpace ch_nl) with true. cbv iota.
  rewrite E2, N2. apply str_rev_involutive.
Qed.

Section PlainFile.

Context (U : UnicodeTables).

(** an instruction without flags nor nested nodes, with nothing to trim *)
Lemma dumpDockerfile_verbatim (n : Node) :
  leaf n -> Forall leaf (chain n) -> Flags n = [] -> plainEnds (verbatimLine n) = true ->
  dumpDockerfile U n = verbatimLine n.
Proof.
  intros Hn Hl Hf Hplain.
  assert (Hnext : match Next n with
                  | None => EmptyString
                  | Some m => dumpNext (dumpDockerfile U) m
                  end = str_concat (map (fun t => " " +:+ Value t) (chain n))).
  { rewrite (chain_unfold n) in Hl |- *. destruct (Next n) as [m|]; [|reflexivity].
    inversion Hl; subst. apply dumpNext_leaves; auto. }
  unfold verbatimLine in *. rewrite Hf in *.
  cbn [map str_concat] in *. rewrite str_app_nil_l in *.
  rewrite dumpDockerfile_unfold, Hn, Hnext, Hf.
  cbn [length Nat.ltb Nat.leb dumpChildren]. rewrite str_app_nil_r.
  apply TrimSpace_plain, Hplain.
Qed.

Lemma dumpedLine_plain (c : Node) :
  plainLine c -> dumpedLine U c = sourceLine c +:+ newline.
Proof.
  intros ([Hcmd|(Hleaf & Hch & Hfl)] & Hp & _); unfold dumpedLine, sourceLine in *.
  - rewrite Hcmd. reflexivity.
  - destruct (String.eqb (Value c) "cmd"); [reflexivity|].
    rewrite dumpDockerfile_verbatim; auto.
Qed.

(** X18: A parsed build file whose lines are CMD lines or instructions without
    flags and nested nodes, none empty and none with white space at its
    ends, is written as these lines in their order, one line end between
    two lines and none after the last: CMD lines as their original text,
    the others word for word. *)
Theorem dumpDockerfile_plain_file (root : Node) :
  Value root = EmptyString -> Flags root = [] -> Next root = None ->
  Forall plainLine (Children root) ->
  dumpDockerfile U root = path.joinWith newline (map sourceLine (Children root)).
Proof.
  intros Hv Hf Hn Hall. rewrite (dumpDockerfile_file U root Hf Hn), Hv, str_app_nil_l.
  assert (Hmap : forall l, Forall plainLine l ->
                 map (dumpedLine U) l = map (fun s => s +:+ newline) (map sourceLine l)).
  { induction 1 as [|c cs Hc Hcs IH]; [reflexivity|].
    cbn [map]. rewrite (dumpedLine_plain c Hc), IH. reflexivity. }
  assert (Hlines : forall l, Forall plainLine l ->
                   Forall (fun s => plainEnds s = true /\ s <> EmptyString) (map sourceLine l)).
  { induction 1 as [|c cs Hc Hcs IH]; constructor; [|exact IH].
    destruct Hc as (_ & Hp & Hne). auto. }
  rewrite (Hmap _ Hall). specialize (Hlines _ Hall).
  destruct (Children root) as [|c cs]; [reflexivity|].
  change (map sourceLine (c :: cs)) with (sourceLine c :: map sourceLine cs) in *.
  rewrite concat_lines.
  destruct (joined_lines_plain _ _ Hlines) as [Hp Hne].
  apply TrimSpace_line_end; assumption.
Qed.

End PlainFile.

Lemma dumpDockerfile_plain_file_witness :
  dumpDockerfile Sample.tables
    (Sample.file [Sample.line "from" [] ["ubuntu"] "FROM ubuntu"; runLine;
                  Sample.line "cmd" [] ["/bin/sh"] "CMD   /bin/sh"])
  = "from ubuntu" +:+ newline +:+ "run make install" +:+ newline +:+ "CMD   /bin/sh".
Proof.
  apply (dumpDockerfile_plain_file Sample.tables
           (Sample.file [Sample.line "from" [] ["ubuntu"] "FROM ubuntu"; runLine;
                         Sample.line "cmd" [] ["/bin/sh"] "CMD   /bin/sh"])).
  - reflexivity.
  - reflexivity.
  - reflexivity.
  - constructor; [|constructor; [|constructor; [|constructor]]].
    + split; [right; split; [reflexivity|split; [repeat constructor|reflexivity]]|].
      split; [reflexivity|discriminate].
    + split; [right; split; [reflexivity|split; [repeat constructor|reflexivity]]|].
      split; [reflexivity|discriminate].
    + split; [left; reflexivity|split; [reflexivity|discriminate]].
Defined.

(** ** A step that runs to its end *)

(** the sample step with an artifact, a cleanup command and a command
    that ends with 0: the generated file is gone and the removal of the
    container is the last request *)
Lemma BuildStep_clean_success_witness :
  files (host (snd (BuildStep Sample.tables (Sample.world extractScript) extractBuilder
                      soloManifest fullStep Sample.start)))
    !! uniqueDockerfile extractBuilder fullStep = None
  /\ exists id,
       last (calls (snd (BuildStep Sample.tables (Sample.world extractScript) extractBuilder
                           soloManifest fullStep Sample.start)))
       = Some (docker.RemoveContainer (removeOptions id)).
Proof.
  destruct (BuildStep_clean_success Sample.tables (Sample.world extractScript) extractBuilder
              soloManifest fullStep Sample.start
              (snd (BuildStep Sample.tables (Sample.world extractScript) extractBuilder
                      soloManifest fullStep Sample.start))) as [Hf Hc].
  - vm_compute. reflexivity.
  - intros id code. vm_compute. discriminate.
  - split; [exact Hf|apply Hc; reflexivity].
Defined.
